(** * Grade-prediction scoring: exam status, point table, rankings

    A shallow embedding of the scoring code of the frontend
    (lib/examUtils, lib/points, pages/Leaderboard, pages/Profile, types)
    and the properties its specification states about it.

    JavaScript numbers that hold grades are IEEE 754 binary64 values and are
    modelled by Rocq's primitive floats, whose comparisons are the IEEE ones
    ([NaN] compares false with everything).  Point values are the integers
    the point table produces (0 to 5) and their sums; they are modelled in
    [Z], on which JavaScript's arithmetic is exact below 2^53.  Time values
    of [Date] objects are integral numbers of milliseconds or [NaN]; they are
    modelled as [option Z]. *)

From Stdlib Require Import ZArith QArith Qabs Qpower Lia Bool List Floats Sorted Permutation.
From Stdlib Require DecimalString.
From stdpp Require Import base option list gmap strings sorting.
Import ListNotations.
Open Scope Z_scope.

(** ** JavaScript values and built-ins used by the code *)

Module JS.

(** A value of type [T | null | undefined]. *)
Inductive nullable (A : Type) : Type :=
| Undefined
| Null
| Val (a : A).
Arguments Undefined {A}.
Arguments Null {A}.
Arguments Val {A} a.

(** [x ?? y]: the left operand unless it is null or undefined. *)
Definition nullish {A} (x y : nullable A) : nullable A :=
  match x with
  | Val a => Val a
  | _ => y
  end.

(** [x ?? d] where [d] is a plain value such as the literal [0]. *)
Definition nullish_default {A} (x : nullable A) (d : A) : A :=
  match x with
  | Val a => a
  | _ => d
  end.

(** [x || 0] on a number: undefined, null and 0 are falsy. *)
Definition or_zero (x : nullable Z) : Z :=
  match x with
  | Val z => if z =? 0 then 0 else z
  | _ => 0
  end.

(** Truthiness of a number: every number but 0, -0 and NaN. *)
Definition truthy_number (x : float) : bool :=
  negb (x =? 0)%float && negb (is_nan x).

(** [Number.isNaN]. *)
Definition Number_isNaN (x : float) : bool := is_nan x.

(** [Math.abs]. *)
Definition Math_abs (x : float) : float := abs x.

(** [Math.round]: the closest integral number, the one closer to +Infinity
    on a tie; numbers that are not finite or already integral are returned
    as they are, and a result of zero keeps the sign of the argument.  A
    finite [x] with a negative exponent is [m / 2^(-e)] with [m < 2^53], so
    the rounded integer is below 2^53 and its conversion is exact. *)
Definition Math_round (x : float) : float :=
  match Prim2SF x with
  | S754_finite s m e =>
      if 0 <=? e then x
      else
        let den := 2 ^ (- e) in
        let num := if s then Z.neg m else Z.pos m in
        let r := (2 * num + den) / (2 * den) in
        if r =? 0 then (if s then neg_zero else zero)
        else if r <? 0 then (- of_uint63 (Uint63.of_Z (- r)))%float
        else of_uint63 (Uint63.of_Z r)
  | _ => x
  end.

(** [Array.prototype.find]. *)
Definition find {A} (p : A -> bool) (l : list A) : option A := List.find p l.

(** [Array.prototype.findIndex]: the index of the first match, or -1. *)
Fixpoint findIndex {A} (p : A -> bool) (l : list A) : Z :=
  match l with
  | [] => -1
  | x :: l' => if p x then 0 else
      let i := findIndex p l' in if i <? 0 then -1 else i + 1
  end.

(** [Array.prototype.map] with the index passed to the callback. *)
Fixpoint mapi_from {A B} (f : A -> Z -> B) (i : Z) (l : list A) : list B :=
  match l with
  | [] => []
  | x :: l' => f x i :: mapi_from f (i + 1) l'
  end.
Definition mapi {A B} (f : A -> Z -> B) (l : list A) : list B := mapi_from f 0 l.

(** [Array.prototype.sort] with a comparison function.  The language
    requires the sort to be stable, which fixes its result for every
    consistent comparison function; it is modelled by the stable insertion
    sort.  [comparefn a b > 0] places [b] before [a]; a comparison function
    whose result is NaN counts as 0 and is written so by its model. *)
Section Sort.
Context {A : Type} (comparefn : A -> A -> Z).

Fixpoint insert (x : A) (l : list A) : list A :=
  match l with
  | [] => [x]
  | y :: l' => if 0 <? comparefn x y then y :: insert x l' else x :: y :: l'
  end.

Definition sort (l : list A) : list A := fold_right insert [] l.
End Sort.

End JS.

Import JS.

(** ** The data model (types) *)

Inductive UserRole := student | teacher.

Inductive ExamStatus := open | evaluation | closed.

Definition ExamStatus_eqb (a b : ExamStatus) : bool :=
  match a, b with
  | open, open | evaluation, evaluation | closed, closed => true
  | _, _ => false
  end.

Module User.
Record t := {
  id : string;
  username : string;
  email : string;
  password : string;
  role : UserRole }.
End User.

Module Exam.
Record t := {
  id : string;
  title : string;
  subject : string;
  description : option string;
  date : string;
  isClosed : bool;
  closedAt : option string;
  grades : option (gmap string float) }.

(** [exam.grades[studentId]] on a grades mapping. *)
Definition grade (g : gmap string float) (studentId : string) : nullable float :=
  match g !! studentId with
  | Some x => Val x
  | None => Undefined
  end.
End Exam.

Module Prediction.
Record t := {
  examId : string;
  studentId : string;
  prediction1 : nullable float;
  prediction2 : nullable float;
  points1 : nullable Z;
  points2 : nullable Z }.
End Prediction.

Module LeaderboardEntry.
Record t := {
  studentId : string;
  studentName : string;
  totalPoints : Z;
  rank : Z }.
End LeaderboardEntry.

(** ** The point table (lib/points) *)

Module Points.

Definition calculatePoints (prediction actualGrade : float) : Z :=
  let difference := Math_abs (prediction - actualGrade)%float in
  if (difference =? 0)%float then 5
  else if (difference <=? 0.25)%float then 4
  else if (difference <=? 0.5)%float then 3
  else if (difference <=? 0.75)%float then 2
  else if (difference <=? 1.0)%float then 1
  else 0.

(** The loop [for (let i = 1; i <= 6; i += 0.25)] of [getGradeOptions],
    with the number of iterations it may still make; [None] when they run
    out before the loop condition fails. *)
Fixpoint gradeLoop (fuel : nat) (i : float) (options : list float)
  : option (list float) :=
  match fuel with
  | O => None
  | S fuel' =>
      if (i <=? 6)%float
      then gradeLoop fuel' (i + 0.25)%float
             (options ++ [(Math_round (i * 100) / 100)%float])
      else Some options
  end.

Definition getGradeOptions (fuel : nat) : option (list float) :=
  gradeLoop fuel 1%float [].

Definition calculatePredictionPoints
    (prediction actualGrade : nullable float) : nullable Z :=
  match prediction with
  | Null | Undefined => Undefined
  | Val p =>
      match actualGrade with
      | Null | Undefined => Undefined
      | Val a =>
          if Number_isNaN a then Undefined
          else Val (calculatePoints p a)
      end
  end.

End Points.

(** ** Exam status (lib/examUtils) *)

(** What the code reads from the JavaScript host: the clock behind
    [new Date()], the parser behind [new Date(string)] ([None] for an
    invalid date, whose time value is NaN), and the time zone, through the
    effect of [setHours(0, 0, 0, 0)] on a valid time value. *)
Record Host := {
  Date_now : Z;
  Date_parse : string -> option Z;
  startOfLocalDay : Z -> Z }.

(** The same host when its clock reads [now]. *)
Definition atClock (h : Host) (now : Z) : Host :=
  {| Date_now := now;
     Date_parse := Date_parse h;
     startOfLocalDay := startOfLocalDay h |}.

Module ExamUtils.

Definition msPerDay : Z := 1000 * 60 * 60 * 24.

(** [d.setHours(0, 0, 0, 0)]: no effect on an invalid date. *)
Definition setHours0 (h : Host) (d : option Z) : option Z :=
  match d with
  | Some t => Some (startOfLocalDay h t)
  | None => None
  end.

(** [Math.floor((now.getTime() - examDate.getTime()) / msPerDay)]; NaN when
    the exam date is invalid.  Time values are integers of magnitude at
    most 8.64e15, so the subtraction is exact, and the quotient's floor is
    compared with 1 and 5 only, where it agrees with the integer quotient. *)
Definition daysSince (now examDate : option Z) : option Z :=
  match now, examDate with
  | Some n, Some e => Some ((n - e) / msPerDay)
  | _, _ => None
  end.

(** Comparisons of a number that may be NaN with an integer literal. *)
Definition geb_num (x : option Z) (k : Z) : bool :=
  match x with Some d => k <=? d | None => false end.
Definition ltb_num (x : option Z) (k : Z) : bool :=
  match x with Some d => d <? k | None => false end.

Definition getExamStatus (h : Host) (exam : Exam.t) : ExamStatus :=
  let now := setHours0 h (Some (Date_now h)) in
  let examDate := setHours0 h (Date_parse h (Exam.date exam)) in
  if Exam.isClosed exam then closed
  else
    let daysSinceExam := daysSince now examDate in
    if geb_num daysSinceExam 1 && ltb_num daysSinceExam 5 then evaluation
    else if geb_num daysSinceExam 5 then closed
    else open.

Definition canSubmitTips (h : Host) (exam : Exam.t) : bool :=
  let status := getExamStatus h exam in
  ExamStatus_eqb status open || ExamStatus_eqb status evaluation.

End ExamUtils.

(** ** Objects the pages build *)

(** The objects [{ studentId, studentName, totalPoints }] of the
    leaderboard page, before ranks are added. *)
Module StudentTotal.
Record t := {
  studentId : string;
  studentName : string;
  totalPoints : Z }.
End StudentTotal.

(** The objects [{ studentId, totalPoints }] of the per-exam ranking. *)
Module Ranking.
Record t := {
  studentId : string;
  totalPoints : Z }.
End Ranking.

(** The rows of the profile page. *)
Module ExamResult.
Record t := {
  examId : string;
  examTitle : string;
  examSubject : string;
  examDate : string;
  grade : nullable float;
  rank : Z;
  totalPoints : Z;
  prediction1 : nullable float;
  prediction2 : nullable float;
  points1 : nullable Z;
  points2 : nullable Z }.
End ExamResult.

(** ** Arrays as mutable objects

    Arrays are objects with identity: [sort] reorders its receiver in
    place, whereas [map] and [filter] build a new array.  The store holds
    the arrays the leaderboard computation touches; a reference is an index
    into it and allocation appends. *)

Module Store.

Inductive array :=
| Exams (l : list Exam.t)
| Users (l : list User.t)
| Predictions (l : list Prediction.t)
| Totals (l : list StudentTotal.t)
| Entries (l : list LeaderboardEntry.t).

Abbreviation ref := nat (only parsing).
Abbreviation t := (list array) (only parsing).

(** Computations that read and update the store. *)
Definition M (A : Type) : Type := t -> A * t.

Definition ret {A} (a : A) : M A := fun s => (a, s).
Definition bind {A B} (m : M A) (k : A -> M B) : M B :=
  fun s => let (a, s') := m s in k a s'.

(** A new array object. *)
Definition new (a : array) : M ref := fun s => (length s, s ++ [a]).

(** Reading the elements of an array of the expected type. *)
Definition exams (r : ref) : M (list Exam.t) :=
  fun s => (match s !! r with Some (Exams l) => l | _ => [] end, s).
Definition users (r : ref) : M (list User.t) :=
  fun s => (match s !! r with Some (Users l) => l | _ => [] end, s).
Definition predictions (r : ref) : M (list Prediction.t) :=
  fun s => (match s !! r with Some (Predictions l) => l | _ => [] end, s).
Definition totals (r : ref) : M (list StudentTotal.t) :=
  fun s => (match s !! r with Some (Totals l) => l | _ => [] end, s).
Definition entries (s : t) (r : ref) : list LeaderboardEntry.t :=
  match s !! r with Some (Entries l) => l | _ => [] end.

(** The reference a computation returns and the store it leaves. *)
Definition result {A} (m : M A) (s : t) : A := fst (m s).
Definition final {A} (m : M A) (s : t) : t := snd (m s).

(** [r.sort(comparefn)] on an array of totals: sorts [r] in place and
    returns [r] itself. *)
Definition sortTotals (comparefn : StudentTotal.t -> StudentTotal.t -> Z)
    (r : ref) : M ref :=
  fun s =>
    match s !! r with
    | Some (Totals l) => (r, <[r := Totals (sort comparefn l)]> s)
    | _ => (r, s)
    end.

End Store.

Notation "x <~ m ; k" := (Store.bind m (fun x => k))
  (at level 100, m at next level, right associativity).

(** ** The global leaderboard (pages/Leaderboard, [loadLeaderboard]) *)

Module Leaderboard.

Definition samePair (exam : Exam.t) (studentId : string) (p : Prediction.t) : bool :=
  String.eqb (Prediction.examId p) (Exam.id exam)
  && String.eqb (Prediction.studentId p) studentId.

(** [stored ?? calculatePredictionPoints(prediction, grade) ?? 0]. *)
Definition pointsOf (stored : nullable Z) (prediction grade : nullable float) : Z :=
  nullish_default
    (nullish stored (Points.calculatePredictionPoints prediction grade)) 0.

(** The body of [exams.forEach]: the new value of [totalPoints]. *)
Definition countExam (h : Host) (predictions : list Prediction.t)
    (student : User.t) (totalPoints : Z) (exam : Exam.t) : Z :=
  match ExamStatus_eqb (ExamUtils.getExamStatus h exam) closed, Exam.grades exam with
  | true, Some grades =>
      match find (samePair exam (User.id student)) predictions with
      | Some prediction =>
          let grade := Exam.grade grades (User.id student) in
          let points1 :=
            pointsOf (Prediction.points1 prediction)
                     (Prediction.prediction1 prediction) grade in
          let points2 :=
            pointsOf (Prediction.points2 prediction)
                     (Prediction.prediction2 prediction) grade in
          totalPoints + (points1 + points2)
      | None => totalPoints
      end
  | _, _ => totalPoints
  end.

(** The callback of [students.map]. *)
Definition studentTotal (h : Host) (exams : list Exam.t)
    (predictions : list Prediction.t) (student : User.t) : StudentTotal.t :=
  let totalPoints := fold_left (countExam h predictions student) exams 0 in
  {| StudentTotal.studentId := User.id student;
     StudentTotal.studentName := User.username student;
     StudentTotal.totalPoints := totalPoints |}.

(** [(a, b) => b.totalPoints - a.totalPoints]. *)
Definition byTotalDesc (a b : StudentTotal.t) : Z :=
  StudentTotal.totalPoints b - StudentTotal.totalPoints a.

(** [(entry, index) => ({ ...entry, rank: index + 1 })]. *)
Definition withRank (entry : StudentTotal.t) (index : Z) : LeaderboardEntry.t :=
  {| LeaderboardEntry.studentId := StudentTotal.studentId entry;
     LeaderboardEntry.studentName := StudentTotal.studentName entry;
     LeaderboardEntry.totalPoints := StudentTotal.totalPoints entry;
     LeaderboardEntry.rank := index + 1 |}.

(** The computation of the leaderboard from the three arrays.  The
    callbacks only read [exams] and [predictions]; [students.map] builds
    the array [studentTotals], [sort] reorders that array in place, and the
    final [map] builds the array handed to the view. *)
Definition loadLeaderboard (h : Host) (exams students predictions : Store.ref)
  : Store.M Store.ref :=
  es <~ Store.exams exams;
  ps <~ Store.predictions predictions;
  ss <~ Store.users students;
  studentTotals <~ Store.new (Store.Totals (map (studentTotal h es ps) ss));
  sorted <~ Store.sortTotals byTotalDesc studentTotals;
  ts <~ Store.totals sorted;
  Store.new (Store.Entries (mapi withRank ts)).

End Leaderboard.

(** ** The leaderboard total in the words of the specification *)

Module LeaderboardSpec.

Definition Zsum (l : list Z) : Z := fold_right Z.add 0 l.

(** The stored points if there are any, else the point table's value for
    the prediction against the grade, else zero. *)
Definition storedElseTableElseZero (stored : nullable Z)
    (prediction grade : nullable float) : Z :=
  match stored with
  | Val n => n
  | _ =>
      match Points.calculatePredictionPoints prediction grade with
      | Val n => n
      | _ => 0
      end
  end.

(** The student's grade entry in the exam, if there is one. *)
Definition gradeOf (exam : Exam.t) (studentId : string) : nullable float :=
  match Exam.grades exam with
  | Some grades => Exam.grade grades studentId
  | None => Undefined
  end.

Definition hasGradeEntry (exam : Exam.t) (studentId : string) : bool :=
  match gradeOf exam studentId with
  | Undefined => false
  | _ => true
  end.

(** What a contributing exam adds for a student: the two point values of
    the student's prediction record, nothing without a record. *)
Definition examPoints (predictions : list Prediction.t) (student : User.t)
    (exam : Exam.t) : Z :=
  match find (Leaderboard.samePair exam (User.id student)) predictions with
  | Some prediction =>
      let grade := gradeOf exam (User.id student) in
      storedElseTableElseZero (Prediction.points1 prediction)
                              (Prediction.prediction1 prediction) grade
      + storedElseTableElseZero (Prediction.points2 prediction)
                                (Prediction.prediction2 prediction) grade
  | None => 0
  end.

(** The contributing exams as the specification states them: resolved
    status closed, and a grade entry for the student. *)
Definition contributesStated (h : Host) (student : User.t) (exam : Exam.t) : bool :=
  ExamStatus_eqb (ExamUtils.getExamStatus h exam) closed
  && hasGradeEntry exam (User.id student).

Definition totalPointsStated (h : Host) (exams : list Exam.t)
    (predictions : list Prediction.t) (student : User.t) : Z :=
  Zsum (map (examPoints predictions student)
            (List.filter (contributesStated h student) exams)).

(** The total as the specification states it, and the row with it. *)
Definition rowStated (h : Host) (exams : list Exam.t)
    (predictions : list Prediction.t) (student : User.t) : StudentTotal.t :=
  {| StudentTotal.studentId := User.id student;
     StudentTotal.studentName := User.username student;
     StudentTotal.totalPoints := totalPointsStated h exams predictions student |}.

(** The data model's invariant on stored points, as far as the total
    depends on it: a prediction record holds a point value only if its
    exam has a grade entry for the record's student. *)
Definition storedOnlyWithGrade (exams : list Exam.t)
    (predictions : list Prediction.t) : Prop :=
  forall (exam : Exam.t) (p : Prediction.t) (n : Z),
    In exam exams -> In p predictions ->
    Prediction.examId p = Exam.id exam ->
    Prediction.points1 p = Val n \/ Prediction.points2 p = Val n ->
    hasGradeEntry exam (Prediction.studentId p) = true.

(** The exams the loop of [loadLeaderboard] counts: resolved status
    closed, and a grades mapping, with or without an entry for the
    student. *)
Definition contributes (h : Host) (exam : Exam.t) : bool :=
  ExamStatus_eqb (ExamUtils.getExamStatus h exam) closed
  && match Exam.grades exam with Some _ => true | None => false end.

Definition totalPoints (h : Host) (exams : list Exam.t)
    (predictions : list Prediction.t) (student : User.t) : Z :=
  Zsum (map (examPoints predictions student)
            (List.filter (contributes h) exams)).

(** The leaderboard row of a student, before ranking. *)
Definition row (h : Host) (exams : list Exam.t)
    (predictions : list Prediction.t) (student : User.t) : StudentTotal.t :=
  {| StudentTotal.studentId := User.id student;
     StudentTotal.studentName := User.username student;
     StudentTotal.totalPoints := totalPoints h exams predictions student |}.

End LeaderboardSpec.

(** ** The per-exam results of one student (pages/Profile, [loadExamResults]) *)

Module Profile.

(** [o?.field]. *)
Definition optField {A B} (field : A -> nullable B) (o : option A) : nullable B :=
  match o with
  | Some a => field a
  | None => Undefined
  end.

(** The filter [exam.isClosed && exam.grades && exam.grades[user.id]]. *)
Definition hasResult (user : User.t) (exam : Exam.t) : bool :=
  Exam.isClosed exam &&
  match Exam.grades exam with
  | Some grades =>
      match Exam.grade grades (User.id user) with
      | Val g => truthy_number g
      | _ => false
      end
  | None => false
  end.

(** [(a, b) => b.totalPoints - a.totalPoints]. *)
Definition byTotalDesc (a b : Ranking.t) : Z :=
  Ranking.totalPoints b - Ranking.totalPoints a.

Definition ranking (examPredictions : list Prediction.t) (student : User.t) : Ranking.t :=
  let pred :=
    find (fun p => String.eqb (Prediction.studentId p) (User.id student))
         examPredictions in
  let totalPoints :=
    or_zero (optField Prediction.points1 pred)
    + or_zero (optField Prediction.points2 pred) in
  {| Ranking.studentId := User.id student; Ranking.totalPoints := totalPoints |}.

Definition examRankings (exam : Exam.t) (students : list User.t)
    (predictions : list Prediction.t) : list Ranking.t :=
  let examPredictions :=
    List.filter (fun p => String.eqb (Prediction.examId p) (Exam.id exam))
                predictions in
  sort byTotalDesc (map (ranking examPredictions) students).

Definition isUser (user : User.t) (r : Ranking.t) : bool :=
  String.eqb (Ranking.studentId r) (User.id user).

Definition userRank (user : User.t) (examRankings : list Ranking.t) : Z :=
  findIndex (isUser user) examRankings + 1.

Definition userTotalPoints (user : User.t) (examRankings : list Ranking.t) : Z :=
  or_zero (optField (fun r => Val (Ranking.totalPoints r))
                    (find (isUser user) examRankings)).

(** The callback of [.map] over the filtered exams. *)
Definition examResult (user : User.t) (students : list User.t)
    (predictions : list Prediction.t) (exam : Exam.t) : ExamResult.t :=
  let prediction := find (Leaderboard.samePair exam (User.id user)) predictions in
  let rankings := examRankings exam students predictions in
  {| ExamResult.examId := Exam.id exam;
     ExamResult.examTitle := Exam.title exam;
     ExamResult.examSubject := Exam.subject exam;
     ExamResult.examDate := Exam.date exam;
     ExamResult.grade :=
       match Exam.grades exam with
       | Some grades => Exam.grade grades (User.id user)
       | None => Undefined
       end;
     ExamResult.rank := userRank user rankings;
     ExamResult.totalPoints := userTotalPoints user rankings;
     ExamResult.prediction1 := optField Prediction.prediction1 prediction;
     ExamResult.prediction2 := optField Prediction.prediction2 prediction;
     ExamResult.points1 := optField Prediction.points1 prediction;
     ExamResult.points2 := optField Prediction.points2 prediction |}.

(** [(a, b) => new Date(b.examDate).getTime() - new Date(a.examDate).getTime()];
    a NaN result counts as 0 in [sort]. *)
Definition byDateDesc (h : Host) (a b : ExamResult.t) : Z :=
  match Date_parse h (ExamResult.examDate b), Date_parse h (ExamResult.examDate a) with
  | Some tb, Some ta => tb - ta
  | _, _ => 0
  end.

Definition loadExamResults (h : Host) (user : User.t) (exams : list Exam.t)
    (predictions : list Prediction.t) (students : list User.t) : list ExamResult.t :=
  sort (byDateDesc h)
    (map (examResult user students predictions)
         (List.filter (hasResult user) exams)).

End Profile.

(** ** The per-exam ranking in the words of the specification *)

Module ProfileSpec.

(** A stored point value, 0 when it is missing. *)
Definition storedOrZero (stored : nullable Z) : Z :=
  match stored with
  | Val n => n
  | _ => 0
  end.

(** The student's total for the exam: the stored points of the student's
    prediction record for the exam, 0 without a record. *)
Definition storedTotal (exam : Exam.t) (predictions : list Prediction.t)
    (student : User.t) : Z :=
  match find (Leaderboard.samePair exam (User.id student)) predictions with
  | Some prediction =>
      storedOrZero (Prediction.points1 prediction)
      + storedOrZero (Prediction.points2 prediction)
  | None => 0
  end.

(** The cohort with its totals, in input order. *)
Definition cohort (exam : Exam.t) (students : list User.t)
    (predictions : list Prediction.t) : list Ranking.t :=
  map (fun student =>
         {| Ranking.studentId := User.id student;
            Ranking.totalPoints := storedTotal exam predictions student |})
      students.

(** What the ranking reads of a prediction record. *)
Definition storedPart (p : Prediction.t) : string * string * nullable Z * nullable Z :=
  (Prediction.examId p, Prediction.studentId p,
   Prediction.points1 p, Prediction.points2 p).

End ProfileSpec.

(** ** The other helpers of lib/examUtils *)

(** [x === undefined]. *)
Definition isUndefined {A} (x : nullable A) : bool :=
  match x with
  | Undefined => true
  | _ => false
  end.

(** The record [predictions.find] picks for an exam and a student. *)
Definition tipsOf (examId studentId : string) (predictions : list Prediction.t)
  : option Prediction.t :=
  find (fun p => String.eqb (Prediction.examId p) examId
                 && String.eqb (Prediction.studentId p) studentId)
       predictions.

Definition hasNoTips (examId studentId : string)
    (predictions : list Prediction.t) : bool :=
  match tipsOf examId studentId predictions with
  | None => true
  | Some prediction =>
      isUndefined (Prediction.prediction1 prediction)
      && isUndefined (Prediction.prediction2 prediction)
  end.

Definition hasBothTips (examId studentId : string)
    (predictions : list Prediction.t) : bool :=
  match tipsOf examId studentId predictions with
  | None => false
  | Some prediction =>
      negb (isUndefined (Prediction.prediction1 prediction))
      && negb (isUndefined (Prediction.prediction2 prediction))
  end.

(** [new Date(exam.date).getTime()]. *)
Definition examTime (h : Host) (exam : Exam.t) : option Z :=
  Date_parse h (Exam.date exam).

(** [(a, b) => new Date(a.date).getTime() - new Date(b.date).getTime()] and
    its mirror image; a NaN result counts as 0 in [sort]. *)
Definition byDateAscending (h : Host) (a b : Exam.t) : Z :=
  match examTime h a, examTime h b with
  | Some ta, Some tb => ta - tb
  | _, _ => 0
  end.

Definition byDateDescending (h : Host) (a b : Exam.t) : Z :=
  match examTime h b, examTime h a with
  | Some tb, Some ta => tb - ta
  | _, _ => 0
  end.

(** [r.sort(comparefn)] on an array of exams, in place. *)
Definition sortExams (comparefn : Exam.t -> Exam.t -> Z) (r : Store.ref)
  : Store.M Store.ref :=
  fun s =>
    match s !! r with
    | Some (Store.Exams l) => (r, <[r := Store.Exams (sort comparefn l)]> s)
    | _ => (r, s)
    end.

(** [sortExamsByStatus]: the spread [[...exams]] builds a new array, which
    is then sorted in place and returned. *)
Definition sortExamsByStatus (h : Host) (exams : Store.ref) (status : ExamStatus)
  : Store.M Store.ref :=
  es <~ Store.exams exams;
  sorted <~ Store.new (Store.Exams es);
  if ExamStatus_eqb status open || ExamStatus_eqb status evaluation
  then sortExams (byDateAscending h) sorted
  else sortExams (byDateDescending h) sorted.

(** ** The exam adapter (lib/apiAdapter, [examToFrontend]) *)

Module ApiAdapter.

(** An exam as the backend sends it: the identifier is a number, the flag
    and the grades may be missing or null. *)
Record BackendExam := {
  id : Z;
  title : string;
  subject : string;
  description : option string;
  date : string;
  isClosed : nullable bool;
  grades : nullable (gmap string float) }.

(** [Object.keys(o)]: the keys of the entries, each once. *)
Definition keys (o : gmap string float) : list string := (map_to_list o).*1.

(** The loop [Object.keys(backendExam.grades).forEach(key => ...)] on the
    mapping under construction; [String(key)] is [key], a key being a
    string already. *)
Definition copyGrades (o : gmap string float) : gmap string float :=
  fold_left (fun grades key =>
               match o !! key with
               | Some g => <[key := g]> grades
               | None => grades
               end)
            (keys o) ∅.

(** [examToFrontend], given [String] on identifiers. *)
Definition examToFrontend (String_ : Z -> string) (backendExam : BackendExam)
  : Exam.t :=
  let grades :=
    match grades backendExam with
    | Val o => copyGrades o
    | _ => ∅
    end in
  {| Exam.id := String_ (id backendExam);
     Exam.title := title backendExam;
     Exam.subject := subject backendExam;
     Exam.description := description backendExam;
     Exam.date := date backendExam;
     Exam.isClosed :=
       match isClosed backendExam with
       | Val true => true
       | _ => false
       end;
     Exam.closedAt := None;
     Exam.grades := Some grades |}.

End ApiAdapter.

(** ** The route guards (App) *)

Module App.

Inductive Page :=
| Login
| StudentDashboard
| TeacherDashboard
| Profile
| Leaderboard
| ClassManagement
| StudentDetail.

(** The routes of [AppRoutes], in the order of the source; [Navigate]
    names its target by the route with that path: [/login] is [LoginRoute]
    and [/] is [HomeRoute]. *)
Inductive Route :=
| LoginRoute
| HomeRoute
| LeaderboardRoute
| ProfileRoute
| ClassRoute
| StudentDetailRoute
| AnyOtherRoute.

Inductive Element :=
| Render (page : Page)
| Navigate (to : Route).

(** [user?.role === role]. *)
Definition hasRole (user : option User.t) (role : UserRole) : bool :=
  match user with
  | Some u =>
      match User.role u, role with
      | student, student | teacher, teacher => true
      | _, _ => false
      end
  | None => false
  end.

Definition ProtectedRoute (user : option User.t) (children : Element) : Element :=
  match user with
  | Some _ => children
  | None => Navigate LoginRoute
  end.

Definition StudentRoute (user : option User.t) (children : Element) : Element :=
  if hasRole user student then children else Navigate HomeRoute.

Definition TeacherRoute (user : option User.t) (children : Element) : Element :=
  if hasRole user teacher then children else Navigate HomeRoute.

(** The [element] of each route. *)
Definition element (user : option User.t) (route : Route) : Element :=
  match route with
  | LoginRoute =>
      match user with
      | Some _ => Navigate HomeRoute
      | None => Render Login
      end
  | HomeRoute =>
      ProtectedRoute user
        (if hasRole user student then Render StudentDashboard
         else Render TeacherDashboard)
  | LeaderboardRoute => ProtectedRoute user (StudentRoute user (Render Leaderboard))
  | ProfileRoute => ProtectedRoute user (StudentRoute user (Render Profile))
  | ClassRoute => ProtectedRoute user (TeacherRoute user (Render ClassManagement))
  | StudentDetailRoute =>
      ProtectedRoute user (TeacherRoute user (Render StudentDetail))
  | AnyOtherRoute => Navigate HomeRoute
  end.

(** Following redirects from a route, at most [fuel] of them; [None] when
    they run out before a page is rendered. *)
Fixpoint show (fuel : nat) (user : option User.t) (route : Route) : option Page :=
  match element user route with
  | Render page => Some page
  | Navigate to =>
      match fuel with
      | O => None
      | S fuel' => show fuel' user to
      end
  end.

End App.

(** ** Loading the leaderboard's data (pages/Leaderboard) *)

Module LeaderboardPage.

(** [u.role === 'student']. *)
Definition isStudent (u : User.t) : bool :=
  match User.role u with
  | student => true
  | teacher => false
  end.

(** The loop over the students that fills [allPredictions]:
    [getPredictionsByStudent] stands for the request of the same name,
    [None] when it fails, in which case the error is logged and the loop
    goes on. *)
Fixpoint loadPredictions
    (getPredictionsByStudent : string -> option (list Prediction.t))
    (students : list User.t) (allPredictions : list Prediction.t)
  : list Prediction.t :=
  match students with
  | [] => allPredictions
  | user :: rest =>
      match getPredictionsByStudent (User.id user) with
      | Some preds =>
          loadPredictions getPredictionsByStudent rest (allPredictions ++ preds)
      | None => loadPredictions getPredictionsByStudent rest allPredictions
      end
  end.

(** The array [studentTotals] of [loadLeaderboard], from the users, the
    exams and the requests. *)
Definition studentTotals (h : Host)
    (getPredictionsByStudent : string -> option (list Prediction.t))
    (exams : list Exam.t) (allUsers : list User.t) : list StudentTotal.t :=
  let students := List.filter isStudent allUsers in
  let predictions := loadPredictions getPredictionsByStudent students [] in
  map (Leaderboard.studentTotal h exams predictions) students.

End LeaderboardPage.

(** ** The user adapter (lib/apiAdapter, [userToFrontend], [userToBackend]) *)

Module UserAdapter.

(** A user as exchanged with the backend: the identifier is a number or
    missing, password and role may be missing or null. *)
Record BackendUser := {
  id : nullable float;
  username : string;
  email : string;
  password : nullable string;
  role : nullable string }.

(** [toLowerCase] and [toUpperCase] on the letters A to Z; the other
    characters of a role name are left alone, which does not change
    whether the result is ['teacher']. *)
Definition lowerChar (c : Ascii.ascii) : Ascii.ascii :=
  let n := Ascii.nat_of_ascii c in
  if (65 <=? n)%nat && (n <=? 90)%nat then Ascii.ascii_of_nat (n + 32) else c.

Definition upperChar (c : Ascii.ascii) : Ascii.ascii :=
  let n := Ascii.nat_of_ascii c in
  if (97 <=? n)%nat && (n <=? 122)%nat then Ascii.ascii_of_nat (n - 32) else c.

Fixpoint toLowerCase (s : string) : string :=
  match s with
  | EmptyString => EmptyString
  | String c s' => String (lowerChar c) (toLowerCase s')
  end.

Fixpoint toUpperCase (s : string) : string :=
  match s with
  | EmptyString => EmptyString
  | String c s' => String (upperChar c) (toUpperCase s')
  end.

(** The string a role is in the frontend. *)
Definition roleName (r : UserRole) : string :=
  match r with
  | student => "student"
  | teacher => "teacher"
  end.

(** [userToFrontend], given [String] on an identifier that may be
    missing. *)
Definition userToFrontend (String_ : nullable float -> string)
    (backendUser : BackendUser) : User.t :=
  {| User.id := String_ (id backendUser);
     User.username := username backendUser;
     User.email := email backendUser;
     User.password :=
       match password backendUser with
       | Val pw => pw
       | _ => EmptyString
       end;
     User.role :=
       match role backendUser with
       | Val r => if String.eqb (toLowerCase r) "teacher" then teacher else student
       | _ => student
       end |}.

(** [userToBackend], given [Number] on strings; an empty identifier is
    falsy and leaves the backend object without one. *)
Definition userToBackend (Number_ : string -> float) (frontendUser : User.t)
  : BackendUser :=
  {| id :=
       match User.id frontendUser with
       | EmptyString => Undefined
       | _ => Val (Number_ (User.id frontendUser))
       end;
     username := User.username frontendUser;
     email := User.email frontendUser;
     password := Val (User.password frontendUser);
     role := Val (toUpperCase (roleName (User.role frontendUser))) |}.

End UserAdapter.

(** ** The session of the logged-in user (context/AuthContext) *)

Module Auth.

Definition STORAGE_KEY : string := "app_current_user".

(** [JSON.stringify] on a user, and [JSON.parse] on a stored string:
    [None] when it throws, [Some None] for a parsed [null]. *)
Record Json := {
  stringify : User.t -> string;
  parse : string -> option (option User.t) }.

(** [getStoredUser] on the session storage; the empty string is falsy. *)
Definition getStoredUser (json : Json) (sessionStorage : gmap string string)
  : option User.t :=
  match sessionStorage !! STORAGE_KEY with
  | Some stored =>
      match stored with
      | EmptyString => None
      | _ =>
          match parse json stored with
          | Some value => value
          | None => None
          end
      end
  | None => None
  end.

Definition setStoredUser (json : Json) (user : option User.t)
    (sessionStorage : gmap string string) : gmap string string :=
  match user with
  | Some u => <[STORAGE_KEY := stringify json u]> sessionStorage
  | None => delete STORAGE_KEY sessionStorage
  end.

(** The state of the provider and the session storage beside it. *)
Record State := {
  user : option User.t;
  loading : bool;
  sessionStorage : gmap string string }.

(** A provider that has just been created, as after a reload. *)
Definition created (storage : gmap string string) : State :=
  {| user := None; loading := true; sessionStorage := storage |}.

(** The effect that runs once when the provider is mounted. *)
Definition mount (json : Json) (st : State) : State :=
  let storedUser := getStoredUser json (sessionStorage st) in
  {| user := match storedUser with Some u => Some u | None => user st end;
     loading := false;
     sessionStorage := sessionStorage st |}.

(** [login], given what the request returned, [None] when it threw. *)
Definition login (json : Json) (response : option User.t) (st : State)
  : bool * State :=
  match response with
  | Some loggedInUser =>
      match User.id loggedInUser with
      | EmptyString => (false, st)
      | _ =>
          (true,
           {| user := Some loggedInUser;
              loading := loading st;
              sessionStorage :=
                setStoredUser json (Some loggedInUser) (sessionStorage st) |})
      end
  | None => (false, st)
  end.

Definition logout (json : Json) (st : State) : State :=
  {| user := None;
     loading := loading st;
     sessionStorage := setStoredUser json None (sessionStorage st) |}.

Definition setCurrentUser (json : Json) (newUser : option User.t) (st : State)
  : State :=
  {| user := newUser;
     loading := loading st;
     sessionStorage := setStoredUser json newUser (sessionStorage st) |}.

End Auth.

(** ** Displaying a grade (lib/points, [formatGrade]) *)

Module Format.
Import Stdlib.Strings.Ascii.

(** The character of a decimal digit and the decimal numeral of a
    natural number. *)
Definition digit (d : Z) : ascii := ascii_of_nat (48 + Z.to_nat d).

Definition decimal (n : Z) : string :=
  DecimalString.NilZero.string_of_uint (N.to_uint (Z.to_N n)).

(** The integer [n] for which [n / 100] is closest to [m * 2^e], the
    larger one of two. *)
Definition hundredths (m : positive) (e : Z) : Z :=
  if 0 <=? e then 100 * Z.pos m * 2 ^ e
  else (200 * Z.pos m + 2 ^ (- e)) / (2 * 2 ^ (- e)).

(** [m * 2^e >= 10^21]. *)
Definition atLeast1e21 (m : positive) (e : Z) : bool :=
  if 0 <=? e then 10 ^ 21 <=? Z.pos m * 2 ^ e
  else 10 ^ 21 * 2 ^ (- e) <=? Z.pos m.

(** [x.toFixed(2)]: a number that is not finite gives what [String(x)]
    gives, which is taken from the host; a finite one gives a minus sign
    if it is below zero and then, for its magnitude, [String] of it from
    10^21 on and else the digits of the hundredths with a point before
    the last two. *)
Definition toFixed2 (Number_toString : float -> string) (x : float) : string :=
  match Prim2SF x with
  | S754_finite s m e =>
      ((if s then "-" else EmptyString)
         ++ (if atLeast1e21 m e then Number_toString (abs x)
             else
               let n := hundredths m e in
               decimal (n / 100)
                 ++ String "." (String (digit (n / 10 mod 10))
                                  (String (digit (n mod 10)) EmptyString))))%string
  | S754_zero _ => "0.00"
  | _ => Number_toString x
  end.

(** [\d]. *)
Definition isDigit (c : ascii) : bool :=
  let n := nat_of_ascii c in (48 <=? n)%nat && (n <=? 57)%nat.

(** [s.replace(/\.00$/, '')] on the characters of [s]. *)
Definition dropPointZeros (s : list ascii) : list ascii :=
  match rev s with
  | z2 :: z1 :: point :: r =>
      if Ascii.eqb z2 "0" && Ascii.eqb z1 "0" && Ascii.eqb point "."
      then rev r else s
  | _ => s
  end.

(** [s.replace(/\.(\d)0$/, '.$1')] on the characters of [s]. *)
Definition dropLastZero (s : list ascii) : list ascii :=
  match rev s with
  | z :: d :: point :: r =>
      if Ascii.eqb z "0" && isDigit d && Ascii.eqb point "."
      then rev (d :: point :: r) else s
  | _ => s
  end.

Definition formatGrade (Number_toString : float -> string)
    (grade : nullable float) : string :=
  match grade with
  | Val g =>
      if Number_isNaN g then "-"
      else
        String.string_of_list_ascii
          (dropLastZero
             (dropPointZeros
                (String.list_ascii_of_string (toFixed2 Number_toString g))))
  | _ => "-"
  end.

(** The shortest numeral of [n / 100] with at most two decimals, with a
    minus sign when [s] is set: the whole part, then the decimals unless
    both are zero, the second one unless it is zero. *)
Definition shortest (s : bool) (n : Z) : string :=
  ((if s then "-" else EmptyString)
     ++ decimal (n / 100)
     ++ (if (n mod 100 =? 0)%Z then EmptyString
         else String "." (String (digit (n / 10 mod 10))
                (if (n mod 10 =? 0)%Z then EmptyString
                 else String (digit (n mod 10)) EmptyString))))%string.

(** The display of the grade option at index [k]: the whole part
    [1 + k / 4] and the quarters. *)
Definition quarterName (k : nat) : string :=
  (decimal (1 + Z.of_nat k / 4)
   ++ match (k mod 4)%nat with
      | 0%nat => EmptyString
      | 1%nat => ".25"
      | 2%nat => ".5"
      | _ => ".75"
      end)%string.

End Format.

(** ** Notions the statements use *)

(** The comparison of two numbers, [None] when one of them is NaN. *)
Definition fcmp (x y : float) : option comparison :=
  SFcompare (Prim2SF x) (Prim2SF y).

(** The tiers as a function of the difference alone. *)
Definition pointsForDifference (difference : float) : Z :=
  if (difference =? 0)%float then 5
  else if (difference <=? 0.25)%float then 4
  else if (difference <=? 0.5)%float then 3
  else if (difference <=? 0.75)%float then 2
  else if (difference <=? 1.0)%float then 1
  else 0.

(** The exact rational value of a finite number. *)
Definition exactValue (x : float) : option Q :=
  match Prim2SF x with
  | S754_zero _ => Some 0%Q
  | S754_finite s m e =>
      Some (inject_Z (if s then Z.neg m else Z.pos m) * Qpower 2 e)%Q
  | _ => None
  end.

(** The comparison function [(a, b) => key b - key a], which sorts by a
    numeric key, largest first. *)
Definition descending {A} (key : A -> Z) (a b : A) : Z := key b - key a.

(** [a] may stand before [b] in a list sorted in descending order. *)
Definition notBelow {A} (key : A -> Z) (a b : A) : Prop := key b <= key a.

(** The ranked rows of the leaderboard, as a function of the arrays'
    elements. *)
Definition ranked (h : Host) (es : list Exam.t) (ss : list User.t)
    (ps : list Prediction.t) : list LeaderboardEntry.t :=
  mapi Leaderboard.withRank
    (sort Leaderboard.byTotalDesc (map (Leaderboard.studentTotal h es ps) ss)).

(** An entry without its rank. *)
Definition unrank (entry : LeaderboardEntry.t) : StudentTotal.t :=
  {| StudentTotal.studentId := LeaderboardEntry.studentId entry;
     StudentTotal.studentName := LeaderboardEntry.studentName entry;
     StudentTotal.totalPoints := LeaderboardEntry.totalPoints entry |}.

(** The place of a status in the life of an exam. *)
Definition statusRank (status : ExamStatus) : Z :=
  match status with
  | open => 0
  | evaluation => 1
  | closed => 2
  end.

(** The exams of an array in a store. *)
Definition examsAt (s : Store.t) (r : Store.ref) : list Exam.t :=
  fst (Store.exams r s).

(** The number of quarter steps between two grade options. *)
Definition quarterSteps (i j : nat) : Z := Z.abs (Z.of_nat i - Z.of_nat j).

(** The exam's date is valid and its time value is [t]. *)
Definition hasTime (h : Host) (t : Z) (exam : Exam.t) : bool :=
  match examTime h exam with
  | Some t' => t' =? t
  | None => false
  end.

(** The time value of a valid date; 0 stands in for an invalid one. *)
Definition timeOr0 (h : Host) (exam : Exam.t) : Z :=
  match examTime h exam with
  | Some t => t
  | None => 0
  end.

(** What a request for a student's predictions delivered, nothing when it
    failed. *)
Definition delivered (getPredictionsByStudent : string -> option (list Prediction.t))
    (studentId : string) : list Prediction.t :=
  match getPredictionsByStudent studentId with
  | Some preds => preds
  | None => []
  end.

(** ** Sample data

    A host in the UTC time zone that parses the dates of the samples, two
    students, and exams around the first days of March 2024. *)

Module Sample.

(** Days since the epoch of the sample dates. *)
Definition dayNumber (date : string) : option Z :=
  if String.eqb date "2024-03-01" then Some 19783
  else if String.eqb date "2024-03-04" then Some 19786
  else if String.eqb date "2024-03-20" then Some 19802
  else None.

Definition utc (now : Z) : Host :=
  {| Date_now := now;
     Date_parse := fun date =>
       match dayNumber date with
       | Some d => Some (d * ExamUtils.msPerDay)
       | None => None
       end;
     startOfLocalDay := fun t => t - t mod ExamUtils.msPerDay |}.

(** Noon of the given day. *)
Definition noon (d : Z) : Z := d * ExamUtils.msPerDay + 12 * 60 * 60 * 1000.

Definition anna : User.t :=
  {| User.id := "1"; User.username := "anna"; User.email := "anna@example.org";
     User.password := "secret"; User.role := student |}.

Definition ben : User.t :=
  {| User.id := "2"; User.username := "ben"; User.email := "ben@example.org";
     User.password := "secret"; User.role := student |}.

Definition exam (id date : string) (isClosed : bool)
    (grades : option (gmap string float)) : Exam.t :=
  {| Exam.id := id; Exam.title := "Proportions"; Exam.subject := "Mathematics";
     Exam.description := None; Exam.date := date; Exam.isClosed := isClosed;
     Exam.closedAt := None; Exam.grades := grades |}.

Definition prediction (examId studentId : string)
    (prediction1 prediction2 : nullable float) (points1 points2 : nullable Z)
  : Prediction.t :=
  {| Prediction.examId := examId; Prediction.studentId := studentId;
     Prediction.prediction1 := prediction1; Prediction.prediction2 := prediction2;
     Prediction.points1 := points1; Prediction.points2 := points2 |}.

(** The store of the samples: one exam of 1 March with a grade for anna,
    the roster ben, anna, and anna's stored points. *)
Definition store : Store.t :=
  [Store.Exams [exam "e1" "2024-03-01" false (Some {[ "1" := 5%float ]})];
   Store.Users [ben; anna];
   Store.Predictions
     [prediction "e1" "1" (Val 5%float) Undefined (Val 5) Undefined]].

End Sample.

(** Two exams in an array of their own, the later one first. *)
Module SampleExams.

Definition later : Exam.t := Sample.exam "e2" "2024-03-04" false None.
Definition earlier : Exam.t := Sample.exam "e1" "2024-03-01" true None.

Definition store : Store.t := [Store.Exams [later; earlier]].

End SampleExams.

(** A request that delivers anna's prediction and fails for everyone
    else, and a JSON codec that knows anna. *)
Module SampleSession.

Definition get (id : string) : option (list Prediction.t) :=
  if String.eqb id "1"
  then Some [Sample.prediction "e1" "1" (Val 5%float) Undefined (Val 5) Undefined]
  else None.

Definition json : Auth.Json :=
  {| Auth.stringify := fun u => User.username u;
     Auth.parse := fun s =>
       if String.eqb s "anna" then Some (Some Sample.anna) else None |}.

End SampleSession.

(** [Number] and [String] on the identifiers of the sample users. *)
Module SampleIds.

Definition Number_ (s : string) : float :=
  if String.eqb s "1" then 1%float
  else if String.eqb s "2" then 2%float
  else nan.

Definition String_ (x : nullable float) : string :=
  match x with
  | Undefined => "undefined"
  | Null => "null"
  | Val f =>
      if (f =? 1)%float then "1"
      else if (f =? 2)%float then "2"
      else "NaN"
  end.

End SampleIds.

(** Hosts in two time zones.  A date-only string is parsed as midnight
    UTC of that date, and [setHours(0, 0, 0, 0)] gives the midnight of
    the local calendar day the time value falls on. *)
Module SampleZones.

Definition hour : Z := 60 * 60 * 1000.

(** Days since the epoch of the sample dates. *)
Definition dayNumber (date : string) : option Z :=
  if String.eqb date "2024-03-04" then Some 19786
  else if String.eqb date "2024-03-31" then Some 19813
  else None.

Definition parse (date : string) : option Z :=
  match dayNumber date with
  | Some d => Some (d * ExamUtils.msPerDay)
  | None => None
  end.

(** A zone that is [offset] ahead of UTC all year: the local calendar
    day of a time value, and the host. *)
Definition fixedDay (offset t : Z) : Z := (t + offset) / ExamUtils.msPerDay.

Definition fixedOffset (offset now : Z) : Host :=
  {| Date_now := now;
     Date_parse := parse;
     startOfLocalDay := fun t => fixedDay offset t * ExamUtils.msPerDay - offset |}.

(** Europe/Zurich in spring and summer 2024: one hour ahead of UTC until
    31 March, 01:00 UTC, and two hours ahead from then on. *)
Definition summerTime : Z := 19813 * ExamUtils.msPerDay + hour.

Definition zurichOffset (t : Z) : Z := if t <? summerTime then hour else 2 * hour.

Definition zurichDay (t : Z) : Z := (t + zurichOffset t) / ExamUtils.msPerDay.

Definition zurich (now : Z) : Host :=
  {| Date_now := now;
     Date_parse := parse;
     startOfLocalDay := fun t =>
       let localMidnight := zurichDay t * ExamUtils.msPerDay in
       localMidnight
       - (if localMidnight - hour <? summerTime then hour else 2 * hour) |}.

End SampleZones.

(** * Verification *)

(** ** Order facts on binary64 numbers

    The comparisons of primitive floats are specified through
    [SFcompare] on their unpacked form; the facts below are the part of
    the IEEE order the point table relies on. *)

Section FloatOrder.

Lemma SFcompare_antisym x y c :
  SFcompare x y = Some c -> SFcompare y x = Some (CompOpp c).
Proof.
  destruct x as [[]|[]| |[] mx ex], y as [[]|[]| |[] my ey]; simpl;
    intros H; inversion H; subst; clear H; try reflexivity.
  all: rewrite (Z.compare_antisym ex ey); destruct (ex ?= ey); simpl; try reflexivity.
  all: change (Pos.compare_cont Eq) with Pos.compare;
       rewrite (Pos.compare_antisym mx my); destruct (mx ?= my)%positive; reflexivity.
Qed.

Lemma SFcompare_comparable x y z z' c c' :
  SFcompare x z = Some c -> SFcompare y z' = Some c' ->
  exists c'', SFcompare x y = Some c''.
Proof.
  destruct x as [[]|[]| |[] mx ex], y as [[]|[]| |[] my ey]; simpl; eauto;
    destruct z, z'; simpl; congruence.
Qed.

Lemma SFleb_trans x y z :
  SFleb x y = true -> SFleb y z = true -> SFleb x z = true.
Proof.
  unfold SFleb.
  destruct x as [[]|[]| |[] mx ex], y as [[]|[]| |[] my ey], z as [[]|[]| |[] mz ez];
    simpl; try (intros; congruence); try reflexivity.
  all: change (Pos.compare_cont Eq) with Pos.compare.
  all: destruct (Z.compare_spec ex ey), (Z.compare_spec ey ez), (Z.compare_spec ex ez);
       subst; try lia; try (intros; congruence); try reflexivity.
  all: destruct (Pos.compare_spec mx my), (Pos.compare_spec my mz), (Pos.compare_spec mx mz);
       subst; simpl; try lia; try (intros; congruence); try reflexivity.
Qed.


Lemma eqb_fcmp x y :
  (x =? y)%float = match fcmp x y with Some Eq => true | _ => false end.
Proof. apply FloatAxioms.eqb_spec. Qed.

Lemma ltb_fcmp x y :
  (x <? y)%float = match fcmp x y with Some Lt => true | _ => false end.
Proof. apply FloatAxioms.ltb_spec. Qed.

Lemma leb_fcmp x y :
  (x <=? y)%float = match fcmp x y with Some (Lt | Eq) => true | _ => false end.
Proof. apply FloatAxioms.leb_spec. Qed.

Lemma fcmp_antisym x y c : fcmp x y = Some c -> fcmp y x = Some (CompOpp c).
Proof. apply SFcompare_antisym. Qed.

Lemma fcmp_comparable x y z z' c c' :
  fcmp x z = Some c -> fcmp y z' = Some c' -> exists c'', fcmp x y = Some c''.
Proof. apply SFcompare_comparable. Qed.

Lemma leb_trans x y z :
  (x <=? y)%float = true -> (y <=? z)%float = true -> (x <=? z)%float = true.
Proof. rewrite !FloatAxioms.leb_spec. apply SFleb_trans. Qed.

Lemma eqb_leb x y : (x =? y)%float = true -> (x <=? y)%float = true.
Proof. rewrite eqb_fcmp, leb_fcmp. destruct (fcmp x y) as [[]|]; congruence. Qed.

Lemma ltb_leb x y : (x <? y)%float = true -> (x <=? y)%float = true.
Proof. rewrite ltb_fcmp, leb_fcmp. destruct (fcmp x y) as [[]|]; congruence. Qed.

(** [x < y] excludes [y <= x]. *)
Lemma ltb_not_leb x y : (x <? y)%float = true -> (y <=? x)%float = false.
Proof.
  rewrite ltb_fcmp, leb_fcmp. destruct (fcmp x y) as [c|] eqn:E; [|congruence].
  rewrite (fcmp_antisym _ _ _ E). destruct c; simpl; congruence.
Qed.

(** Totality on numbers: when neither [x] nor [y] is NaN (each compares
    with something), [x <= y] fails only if [y < x]. *)
Lemma not_leb_ltb x y z z' :
  (x <=? z)%float = true -> (y <=? z')%float = true ->
  (x <=? y)%float = false -> (y <? x)%float = true.
Proof.
  rewrite !leb_fcmp, ltb_fcmp. intros Hx Hy.
  destruct (fcmp x z) as [cx|] eqn:Ex; [|congruence].
  destruct (fcmp y z') as [cy|] eqn:Ey; [|congruence].
  destruct (fcmp_comparable _ _ _ _ _ _ Ex Ey) as [c E]. rewrite E.
  rewrite (fcmp_antisym _ _ _ E). destruct c; simpl; congruence.
Qed.

(** An absolute value is never below zero. *)
Lemma abs_not_neg x : (abs x <? 0)%float = false.
Proof.
  rewrite FloatAxioms.ltb_spec, abs_spec.
  destruct (Prim2SF x) as [[]|[]| |[] m e]; reflexivity.
Qed.

(** NaN is absorbing for subtraction. *)
Lemma nan_sub a : (nan - a)%float = nan.
Proof. apply Prim2SF_inj. rewrite sub_spec. reflexivity. Qed.

End FloatOrder.

(** ** The point table *)

Section PointTable.
Import Points.


Lemma calculatePoints_difference p a :
  calculatePoints p a = pointsForDifference (Math_abs (p - a)).
Proof. reflexivity. Qed.

Lemma eqb_zero_not_pos d : (d =? 0)%float = true -> (0 <? d)%float = false.
Proof.
  rewrite eqb_fcmp, ltb_fcmp. destruct (fcmp d 0) as [c|] eqn:E; [|congruence].
  rewrite (fcmp_antisym _ _ _ E). destruct c; simpl; congruence.
Qed.

Lemma nonzero_pos d z :
  (d <? 0)%float = false -> (d =? 0)%float = false -> (d <=? z)%float = true ->
  (0 <? d)%float = true.
Proof.
  intros Hn H0 Hz.
  apply (not_leb_ltb d 0%float z 0%float Hz eq_refl).
  revert Hn H0. rewrite leb_fcmp, ltb_fcmp, eqb_fcmp.
  destruct (fcmp d 0) as [[]|]; congruence.
Qed.

Lemma leb_not_ltb c d : (d <=? c)%float = true -> (c <? d)%float = false.
Proof.
  intros H. destruct (c <? d)%float eqn:E; [|reflexivity].
  apply ltb_not_leb in E. congruence.
Qed.

Lemma leb_refl_of d z : (d <=? z)%float = true -> (d <=? d)%float = true.
Proof.
  rewrite !leb_fcmp. destruct (fcmp d z) as [c|] eqn:E; [|congruence]. intros _.
  destruct (fcmp_comparable _ _ _ _ _ _ E E) as [c' E'].
  pose proof (fcmp_antisym _ _ _ E') as E''. rewrite E' in *.
  destruct c'; simpl in E''; congruence.
Qed.

Lemma ltb_refl_r c d : (c <? d)%float = true -> (d <=? d)%float = true.
Proof.
  rewrite ltb_fcmp, leb_fcmp. destruct (fcmp c d) as [k|] eqn:E; [|congruence]. intros _.
  pose proof (fcmp_antisym _ _ _ E) as E1.
  destruct (fcmp_comparable _ _ _ _ _ _ E1 E1) as [c' E'].
  pose proof (fcmp_antisym _ _ _ E') as E''. rewrite E' in *.
  destruct c'; simpl in E''; congruence.
Qed.

(** The facts about one difference [d >= 0] that the table needs: each
    tier lies within the next, and the strict comparisons from below are
    the negations of the inclusive ones from above once [d] is a number. *)
Lemma tiers_of_nonneg d :
  (d <? 0)%float = false ->
  ((d =? 0)%float = true -> (d <=? 0.25)%float = true) /\
  ((d <=? 0.25)%float = true -> (d <=? 0.5)%float = true) /\
  ((d <=? 0.5)%float = true -> (d <=? 0.75)%float = true) /\
  ((d <=? 0.75)%float = true -> (d <=? 1)%float = true) /\
  (0 <? d)%float = negb (d =? 0)%float && (d <=? d)%float /\
  (forall c : float,
      (c <=? c)%float = true ->
      (c <? d)%float = negb (d <=? c)%float && (d <=? d)%float).
Proof.
  intros Hn. repeat apply conj.
  - intros H. apply eqb_leb in H. exact (leb_trans d 0 0.25 H eq_refl).
  - intros H. exact (leb_trans d 0.25 0.5 H eq_refl).
  - intros H. exact (leb_trans d 0.5 0.75 H eq_refl).
  - intros H. exact (leb_trans d 0.75 1 H eq_refl).
  - destruct (d =? 0)%float eqn:E0; simpl.
    + now apply eqb_zero_not_pos.
    + destruct (d <=? d)%float eqn:Ed.
      * now apply (nonzero_pos d d).
      * destruct (0 <? d)%float eqn:E; [|reflexivity].
        apply ltb_refl_r in E. congruence.
  - intros c Hc. destruct (d <=? c)%float eqn:E; simpl.
    + now apply leb_not_ltb.
    + destruct (d <=? d)%float eqn:Ed.
      * exact (not_leb_ltb d c d c Ed Hc E).
      * destruct (c <? d)%float eqn:E'; [|reflexivity].
        apply ltb_refl_r in E'. congruence.
Qed.

Lemma leb_zero_eqb d :
  (d <? 0)%float = false -> (d <=? 0)%float = true -> (d =? 0)%float = true.
Proof.
  rewrite ltb_fcmp, leb_fcmp, eqb_fcmp. destruct (fcmp d 0) as [[]|]; congruence.
Qed.

(** The table, read off the difference. *)
Lemma pointsForDifference_table d :
  (d <? 0)%float = false ->
  (pointsForDifference d = 5 <-> (d =? 0)%float = true) /\
  (pointsForDifference d = 4 <-> (0 <? d)%float = true /\ (d <=? 0.25)%float = true) /\
  (pointsForDifference d = 3 <-> (0.25 <? d)%float = true /\ (d <=? 0.5)%float = true) /\
  (pointsForDifference d = 2 <-> (0.5 <? d)%float = true /\ (d <=? 0.75)%float = true) /\
  (pointsForDifference d = 1 <-> (0.75 <? d)%float = true /\ (d <=? 1)%float = true) /\
  ((1 <? d)%float = true -> pointsForDifference d = 0) /\
  0 <= pointsForDifference d <= 5.
Proof.
  intros Hn. destruct (tiers_of_nonneg d Hn) as (T01 & T12 & T23 & T34 & Tpos & Tlt).
  rewrite Tpos, (Tlt 0.25%float eq_refl), (Tlt 0.5%float eq_refl),
    (Tlt 0.75%float eq_refl), (Tlt 1%float eq_refl).
  pose proof (leb_refl_of d 0.25) as R1. pose proof (leb_refl_of d 0.5) as R2.
  pose proof (leb_refl_of d 0.75) as R3. pose proof (leb_refl_of d 1) as R4.
  unfold pointsForDifference.
  destruct (d =? 0)%float, (d <=? 0.25)%float, (d <=? 0.5)%float,
    (d <=? 0.75)%float, (d <=? 1)%float, (d <=? d)%float; simpl;
    repeat split; intros; try lia; try congruence;
    try (exfalso; intuition congruence); intuition congruence.
Qed.

(** A larger difference never earns more points. *)
Lemma pointsForDifference_mono d d' :
  (d <? 0)%float = false -> (d <=? d')%float = true ->
  pointsForDifference d' <= pointsForDifference d.
Proof.
  intros Hn H.
  assert (M0 : (d' =? 0)%float = true -> (d =? 0)%float = true).
  { intros E. apply leb_zero_eqb; [exact Hn|].
    exact (leb_trans _ _ _ H (eqb_leb _ _ E)). }
  pose proof (leb_trans d d' 0.25 H) as M1. pose proof (leb_trans d d' 0.5 H) as M2.
  pose proof (leb_trans d d' 0.75 H) as M3. pose proof (leb_trans d d' 1 H) as M4.
  destruct (tiers_of_nonneg d Hn) as (T01 & T12 & T23 & T34 & _).
  unfold pointsForDifference.
  destruct (d' =? 0)%float, (d' <=? 0.25)%float, (d' <=? 0.5)%float,
    (d' <=? 0.75)%float, (d' <=? 1)%float;
    destruct (d =? 0)%float, (d <=? 0.25)%float, (d <=? 0.5)%float,
      (d <=? 0.75)%float, (d <=? 1)%float;
    try lia; exfalso; intuition congruence.
Qed.

End PointTable.

Section PointsClaims.
Import Points.

(** C3. With [d = |p - a|], [calculatePoints p a] is a step function of
    [d] with values in 0..5 that follows the tier table with inclusive
    upper bounds (5 for [d = 0], 4 for [0 < d <= 0.25], 3 for
    [0.25 < d <= 0.5], 2 for [0.5 < d <= 0.75], 1 for [0.75 < d <= 1]); it
    is 5 exactly when [d = 0], it is 0 whenever [d > 1], and it never
    increases when the difference grows. *)
Theorem calculatePoints_step_function (p a : float) :
  let d := Math_abs (p - a) in
  (calculatePoints p a = 5 <-> (d =? 0)%float = true) /\
  (calculatePoints p a = 4 <-> (0 <? d)%float = true /\ (d <=? 0.25)%float = true) /\
  (calculatePoints p a = 3 <-> (0.25 <? d)%float = true /\ (d <=? 0.5)%float = true) /\
  (calculatePoints p a = 2 <-> (0.5 <? d)%float = true /\ (d <=? 0.75)%float = true) /\
  (calculatePoints p a = 1 <-> (0.75 <? d)%float = true /\ (d <=? 1)%float = true) /\
  ((1 <? d)%float = true -> calculatePoints p a = 0) /\
  0 <= calculatePoints p a <= 5 /\
  (forall p' a' : float,
      (d <=? Math_abs (p' - a'))%float = true ->
      calculatePoints p' a' <= calculatePoints p a).
Proof.
  intros d. rewrite calculatePoints_difference. fold d.
  assert (Hn : (d <? 0)%float = false) by apply abs_not_neg.
  destruct (pointsForDifference_table d Hn) as (H5 & H4 & H3 & H2 & H1 & H0 & Hr).
  repeat split; try tauto; try lia.
  intros p' a' Hle. rewrite calculatePoints_difference.
  now apply pointsForDifference_mono.
Qed.

(** A prediction of 4.5 against a grade of 4.0 lies in the third tier. *)
Lemma calculatePoints_step_function_witness : calculatePoints 4.5 4 = 3.
Proof.
  apply (calculatePoints_step_function 4.5 4). split; reflexivity.
Defined.

(** C4. The null-safe wrapper yields undefined, and so no number at all,
    when the prediction is null or undefined or the actual grade is null,
    undefined or NaN, and only then; in particular for
    [(undefined, 4.0)] and [(4.0, NaN)]. *)
Theorem calculatePredictionPoints_missing :
  (forall prediction actualGrade : nullable float,
      (prediction = Undefined \/ prediction = Null \/
       actualGrade = Undefined \/ actualGrade = Null \/
       exists a, actualGrade = Val a /\ Number_isNaN a = true)
      <-> calculatePredictionPoints prediction actualGrade = Undefined) /\
  (forall prediction actualGrade : nullable float,
      calculatePredictionPoints prediction actualGrade = Undefined ->
      forall n, calculatePredictionPoints prediction actualGrade <> Val n) /\
  calculatePredictionPoints Undefined (Val 4.0%float) = Undefined /\
  calculatePredictionPoints (Val 4.0%float) (Val nan) = Undefined.
Proof.
  split; [|split; [|split; reflexivity]].
  - intros prediction actualGrade. split.
    + intros H. destruct prediction as [| |p], actualGrade as [| |a];
        try reflexivity. simpl.
      destruct H as [H | [H | [H | [H | (a' & H & Ha)]]]]; try discriminate.
      injection H as <-. now rewrite Ha.
    + destruct prediction as [| |p]; [tauto | tauto |].
      destruct actualGrade as [| |a]; [tauto | tauto |]. simpl.
      destruct (Number_isNaN a) eqn:Ha; [|discriminate].
      intros _. do 4 right. now exists a.
  - intros prediction actualGrade -> n. discriminate.
Qed.

Lemma calculatePredictionPoints_missing_witness :
  calculatePredictionPoints Null (Val 4.0%float) = Undefined.
Proof.
  apply (proj1 calculatePredictionPoints_missing). right. now left.
Defined.

(** C10. A NaN prediction passes the missing-value checks: against every
    actual grade that is a number other than NaN it scores 0 points, a
    real score; a NaN actual grade yields undefined whatever the
    prediction. *)
Theorem nan_prediction_scores_zero :
  (forall a : float,
      Number_isNaN a = false ->
      calculatePredictionPoints (Val nan) (Val a) = Val 0) /\
  (forall prediction : nullable float,
      calculatePredictionPoints prediction (Val nan) = Undefined).
Proof.
  split.
  - intros a Ha. simpl. rewrite Ha. f_equal.
    unfold calculatePoints. rewrite nan_sub. reflexivity.
  - intros [| |p]; reflexivity.
Qed.

Lemma nan_prediction_scores_zero_witness :
  calculatePredictionPoints (Val nan) (Val 4.0%float) = Val 0.
Proof.
  apply (proj1 nan_prediction_scores_zero). reflexivity.
Defined.

End PointsClaims.

(** ** The grade options *)

Section GradeOptions.
Import Points.


(** The loop leaves through its condition after 21 iterations; 22 units
    of fuel are enough for it to get there. *)
Lemma getGradeOptions_runs (n : nat) :
  getGradeOptions (22 + n) =
  Some [1; 1.25; 1.5; 1.75; 2; 2.25; 2.5; 2.75; 3; 3.25; 3.5; 3.75;
        4; 4.25; 4.5; 4.75; 5; 5.25; 5.5; 5.75; 6]%float.
Proof. vm_compute. reflexivity. Qed.

(** C8. The loop of [getGradeOptions] terminates and produces exactly 21
    grades, from 1.0 to 6.0, each 0.25 above the one before; the exact
    value of the entry at index [k] is the quarter step [1 + k/4] itself,
    hence within 0.001 of it. *)
Theorem getGradeOptions_quarter_steps (fuel : nat) :
  (22 <= fuel)%nat ->
  exists options : list float,
    getGradeOptions fuel = Some options /\
    length options = 21%nat /\
    head options = Some 1%float /\
    last options = Some 6%float /\
    (forall (i : nat) (x y : float),
        options !! i = Some x -> options !! S i = Some y ->
        (y - x)%float = 0.25%float) /\
    (forall (k : nat) (x : float),
        options !! k = Some x ->
        exists q : Q,
          exactValue x = Some q /\
          (q == 1 + inject_Z (Z.of_nat k) * (1 # 4))%Q /\
          (Qabs (q - (1 + inject_Z (Z.of_nat k) * (1 # 4))) <= 1 # 1000)%Q).
Proof.
  intros Hfuel. replace fuel with (22 + (fuel - 22))%nat by lia.
  eexists. split; [apply getGradeOptions_runs|].
  split; [reflexivity|]. split; [reflexivity|]. split; [reflexivity|]. split.
  - intros i x y Hx Hy.
    do 21 (destruct i as [|i];
           [cbn in Hx, Hy; simplify_eq; reflexivity|]).
    discriminate.
  - intros k x Hx.
    do 21 (destruct k as [|k];
           [cbn in Hx; simplify_eq; eexists; split; [|split];
            [vm_compute; reflexivity | vm_compute; reflexivity
            | vm_compute; discriminate]|]).
    discriminate.
Qed.

Lemma getGradeOptions_quarter_steps_witness :
  exists options : list float,
    getGradeOptions 30 = Some options /\ length options = 21%nat.
Proof.
  destruct (getGradeOptions_quarter_steps 30 ltac:(lia)) as (options & H & Hl & _).
  exists options. split; assumption.
Defined.

End GradeOptions.

(** ** Exam status *)

Section ExamStatusClaims.
Import ExamUtils.

Lemma getExamStatus_closed_flag h exam :
  Exam.isClosed exam = true -> getExamStatus h exam = closed.
Proof. unfold getExamStatus. now intros ->. Qed.

(** The status of an exam that is not closed by hand and has a valid
    date, as a function of the day count. *)
Lemma getExamStatus_days h exam examDate :
  Exam.isClosed exam = false ->
  Date_parse h (Exam.date exam) = Some examDate ->
  let days := (startOfLocalDay h (Date_now h) - startOfLocalDay h examDate) / msPerDay in
  getExamStatus h exam =
    if (1 <=? days) && (days <? 5) then evaluation
    else if 5 <=? days then closed else open.
Proof. unfold getExamStatus. intros -> ->. reflexivity. Qed.

(** The resolution in units of 24 hours.  A manually closed exam is
    closed whatever the dates.  Otherwise, with both time values moved to
    the start of their local day and [daysSinceExam] the number of whole
    24 hours between them, the exam is open when [daysSinceExam < 1], in
    evaluation when [1 <= daysSinceExam < 5] and closed when
    [daysSinceExam >= 5]. *)
Theorem getExamStatus_resolution (h : Host) (exam : Exam.t) :
  (Exam.isClosed exam = true -> getExamStatus h exam = closed) /\
  (Exam.isClosed exam = false ->
   forall examDate : Z,
     Date_parse h (Exam.date exam) = Some examDate ->
     let now := startOfLocalDay h (Date_now h) in
     let daysSinceExam := (now - startOfLocalDay h examDate) / msPerDay in
     (daysSinceExam * msPerDay <= now - startOfLocalDay h examDate
        < (daysSinceExam + 1) * msPerDay) /\
     (daysSinceExam < 1 -> getExamStatus h exam = open) /\
     (1 <= daysSinceExam < 5 -> getExamStatus h exam = evaluation) /\
     (5 <= daysSinceExam -> getExamStatus h exam = closed)).
Proof.
  split; [apply getExamStatus_closed_flag|].
  intros Hflag examDate Hdate now daysSinceExam.
  rewrite (getExamStatus_days h exam examDate Hflag Hdate).
  fold now. fold daysSinceExam. split.
  - unfold daysSinceExam, msPerDay.
    pose proof (Z.div_mod (now - startOfLocalDay h examDate) 86400000 ltac:(lia)).
    pose proof (Z.mod_pos_bound (now - startOfLocalDay h examDate) 86400000 ltac:(lia)).
    change (1000 * 60 * 60 * 24) with 86400000. lia.
  - repeat split; intros Hd.
    + destruct (1 <=? daysSinceExam) eqn:E1, (5 <=? daysSinceExam) eqn:E5;
        simpl; try reflexivity; lia.
    + destruct (1 <=? daysSinceExam) eqn:E1, (daysSinceExam <? 5) eqn:E5;
        simpl; try reflexivity; lia.
    + destruct (1 <=? daysSinceExam) eqn:E1, (daysSinceExam <? 5) eqn:E5,
        (5 <=? daysSinceExam) eqn:E6; simpl; try reflexivity; lia.
Qed.

(** An exam of 1 March seen at noon of 4 March is in evaluation. *)
Lemma getExamStatus_resolution_witness :
  getExamStatus (Sample.utc (Sample.noon 19786))
                (Sample.exam "e1" "2024-03-01" false None) = evaluation.
Proof.
  refine (proj1 (proj2 (proj2
    (proj2 (getExamStatus_resolution (Sample.utc (Sample.noon 19786))
              (Sample.exam "e1" "2024-03-01" false None))
       eq_refl (19783 * msPerDay) eq_refl))) _).
  vm_compute. split; [discriminate | reflexivity].
Defined.

(** C2.  The day count of the code is not the number of days between
    the calendar dates.  In Zurich, at noon of 5 April 2024, five calendar
    days after an exam of 31 March, the two local midnights are 119 hours
    apart, because summer time began in between: the count is 4, the
    exam is in evaluation and tips are still accepted.  On a host five
    hours behind UTC, the date of an exam of 4 March is parsed as the
    evening of 3 March, and at noon of 4 March the exam is in evaluation
    on its own day. *)
Lemma getExamStatus_calendar_days_off :
  let zurichNoon := 19818 * msPerDay + 10 * SampleZones.hour in
  let west := - 5 * SampleZones.hour in
  let westNoon := 19786 * msPerDay + 17 * SampleZones.hour in
  (SampleZones.dayNumber "2024-03-31" = Some 19813 /\
   SampleZones.zurichDay zurichNoon = 19813 + 5 /\
   getExamStatus (SampleZones.zurich zurichNoon)
                 (Sample.exam "e1" "2024-03-31" false None) = evaluation /\
   canSubmitTips (SampleZones.zurich zurichNoon)
                 (Sample.exam "e1" "2024-03-31" false None) = true) /\
  (SampleZones.dayNumber "2024-03-04" = Some 19786 /\
   SampleZones.fixedDay west westNoon = 19786 /\
   getExamStatus (SampleZones.fixedOffset west westNoon)
                 (Sample.exam "e2" "2024-03-04" false None) = evaluation).
Proof. vm_compute. repeat split. Qed.

(** C7, as stated, fails: the only parameter of the resolver is the exam;
    the current date comes from the host's clock, and the same exam
    resolves differently under two readings of it. *)
Lemma getExamStatus_reads_clock :
  ~ (forall (exam : Exam.t) (h : Host) (t1 t2 : Z),
        getExamStatus (atClock h t1) exam = getExamStatus (atClock h t2) exam).
Proof.
  intros H.
  specialize (H (Sample.exam "e1" "2024-03-01" false None) (Sample.utc 0)
                (Sample.noon 19783) (Sample.noon 19802)).
  vm_compute in H. discriminate.
Qed.

(** C7, amended.  The resolver reads the current date from the host's
    clock; two evaluations on the same exam give the same status, and the
    same answer on whether tips may be submitted, whenever the two clock
    readings fall on the same local day. *)
Theorem getExamStatus_same_day (h : Host) (exam : Exam.t) (t1 t2 : Z) :
  startOfLocalDay h t1 = startOfLocalDay h t2 ->
  getExamStatus (atClock h t1) exam = getExamStatus (atClock h t2) exam /\
  canSubmitTips (atClock h t1) exam = canSubmitTips (atClock h t2) exam.
Proof.
  intros Hday.
  assert (E : getExamStatus (atClock h t1) exam = getExamStatus (atClock h t2) exam).
  { unfold getExamStatus. simpl. now rewrite Hday. }
  split; [exact E|]. unfold canSubmitTips. now rewrite E.
Qed.

Lemma getExamStatus_same_day_witness :
  getExamStatus (atClock (Sample.utc 0) (Sample.noon 19786))
                (Sample.exam "e1" "2024-03-01" false None)
  = getExamStatus (atClock (Sample.utc 0) (Sample.noon 19786 + 1000))
                (Sample.exam "e1" "2024-03-01" false None).
Proof.
  apply (getExamStatus_same_day (Sample.utc 0)
           (Sample.exam "e1" "2024-03-01" false None)
           (Sample.noon 19786) (Sample.noon 19786 + 1000)).
  vm_compute. reflexivity.
Defined.

End ExamStatusClaims.

(** ** Facts about the array built-ins *)

Section ArrayFacts.
Context {A : Type}.

Lemma insert_perm (comparefn : A -> A -> Z) x l :
  Permutation (insert comparefn x l) (x :: l).
Proof.
  induction l as [|y l IH]; simpl; [reflexivity|].
  destruct (0 <? comparefn x y); [|reflexivity].
  rewrite IH. apply perm_swap.
Qed.

Lemma sort_perm (comparefn : A -> A -> Z) l :
  Permutation (sort comparefn l) l.
Proof.
  induction l as [|x l IH]; simpl; [reflexivity|].
  rewrite insert_perm. now constructor.
Qed.


(** Sorting by a numeric key, largest first. *)
Context (key : A -> Z).

Lemma insert_descending_sorted x l :
  StronglySorted (notBelow key) l -> StronglySorted (notBelow key) (insert (descending key) x l).
Proof.
  induction 1 as [|y l Hl IH Hy]; simpl.
  - repeat constructor.
  - unfold descending at 1. destruct (0 <? key y - key x) eqn:E.
    + constructor; [exact IH|].
      rewrite insert_perm.
      constructor; [unfold notBelow; lia | exact Hy].
    + constructor; [now constructor|].
      constructor; [unfold notBelow; lia|].
      eapply Forall_impl; [exact Hy|]. unfold notBelow. intros; lia.
Qed.

Lemma sort_descending_sorted l : StronglySorted (notBelow key) (sort (descending key) l).
Proof.
  induction l as [|x l IH]; simpl; [constructor|].
  now apply insert_descending_sorted.
Qed.

(** Stability: the elements of any one key keep their order. *)
Lemma insert_descending_stable k x l :
  List.filter (fun a => key a =? k) (insert (descending key) x l)
  = List.filter (fun a => key a =? k) (x :: l).
Proof.
  induction l as [|y l IH]; [reflexivity|].
  simpl insert. unfold descending at 1.
  destruct (0 <? key y - key x) eqn:E; [|reflexivity].
  simpl in *. rewrite IH.
  destruct (key x =? k) eqn:Ex, (key y =? k) eqn:Ey; try reflexivity; lia.
Qed.

Lemma sort_descending_stable k l :
  List.filter (fun a => key a =? k) (sort (descending key) l)
  = List.filter (fun a => key a =? k) l.
Proof.
  induction l as [|x l IH]; [reflexivity|].
  simpl sort. rewrite insert_descending_stable. simpl. now rewrite IH.
Qed.

Lemma mapi_from_lookup {B} (f : A -> Z -> B) i l (n : nat) :
  mapi_from f i l !! n = (fun x => f x (i + Z.of_nat n)) <$> l !! n.
Proof.
  revert i n. induction l as [|x l IH]; intros i [|n]; simpl; try reflexivity.
  - now rewrite Z.add_0_r.
  - rewrite IH. destruct (l !! n); simpl; [|reflexivity]. do 2 f_equal. lia.
Qed.

Lemma mapi_from_map {B C} (f : A -> Z -> B) (g : B -> C) (g' : A -> C) i l :
  (forall x j, g (f x j) = g' x) -> map g (mapi_from f i l) = map g' l.
Proof.
  intros H. revert i. induction l as [|x l IH]; intros i; simpl; [reflexivity|].
  now rewrite H, IH.
Qed.

(** [findIndex] returns the position of the first match. *)
Lemma findIndex_first (p : A -> bool) l x :
  In x l -> p x = true ->
  exists (n : nat) (y : A),
    findIndex p l = Z.of_nat n /\ l !! n = Some y /\ p y = true /\
    (forall (m : nat) (z : A), (m < n)%nat -> l !! m = Some z -> p z = false) /\
    find p l = Some y.
Proof.
  induction l as [|a l IH]; [intros []|].
  intros Hin Hp. simpl. destruct (p a) eqn:Ea.
  - exists 0%nat, a. repeat split; try assumption. intros m z Hm. lia.
  - destruct Hin as [-> | Hin]; [congruence|].
    destruct (IH Hin Hp) as (n & y & Hi & Hn & Hy & Hbefore & Hf).
    exists (S n), y. rewrite Hi.
    destruct (Z.of_nat n <? 0) eqn:E; [lia|]. repeat split; try assumption.
    + lia.
    + intros [|m] z Hm Hz; simpl in Hz; [congruence|].
      apply (Hbefore m z); [lia | exact Hz].
Qed.

Lemma mapi_from_sorted {B} (key' : B -> Z) (f : A -> Z -> B) i l :
  (forall x j, key' (f x j) = key x) ->
  StronglySorted (notBelow key) l ->
  StronglySorted (fun a b => key' b <= key' a) (mapi_from f i l).
Proof.
  intros Hkey Hl. revert i.
  induction Hl as [|x l Hl IH Hx]; intros i; simpl; constructor; [apply IH|].
  clear IH Hl. generalize (i + 1). rewrite Hkey. clear i.
  induction l as [|y l IH]; intros j; simpl; constructor.
  - rewrite Hkey. now inversion Hx.
  - apply IH. now inversion Hx.
Qed.

End ArrayFacts.

(** ** The global leaderboard *)

Section LeaderboardClaims.
Import Leaderboard LeaderboardSpec.

Lemma pointsOf_stored stored prediction grade :
  pointsOf stored prediction grade = storedElseTableElseZero stored prediction grade.
Proof.
  unfold pointsOf, storedElseTableElseZero.
  destruct stored; simpl; try reflexivity;
    destruct (Points.calculatePredictionPoints prediction grade); reflexivity.
Qed.

(** One step of [exams.forEach]. *)
Lemma countExam_step h predictions student totalPoints exam :
  countExam h predictions student totalPoints exam
  = if contributes h exam
    then totalPoints + examPoints predictions student exam
    else totalPoints.
Proof.
  unfold countExam, contributes, examPoints, gradeOf.
  destruct (ExamStatus_eqb (ExamUtils.getExamStatus h exam) closed);
    destruct (Exam.grades exam) as [grades|]; simpl; try reflexivity.
  destruct (find _ predictions) as [prediction|]; [|lia].
  now rewrite !pointsOf_stored.
Qed.

Lemma fold_countExam h predictions student exams acc :
  fold_left (countExam h predictions student) exams acc
  = acc + Zsum (map (examPoints predictions student)
                    (List.filter (contributes h) exams)).
Proof.
  revert acc. induction exams as [|exam exams IH]; intros acc; simpl; [lia|].
  rewrite IH, countExam_step. destruct (contributes h exam); simpl; lia.
Qed.

Lemma studentTotal_row h exams predictions student :
  studentTotal h exams predictions student = row h exams predictions student.
Proof.
  unfold studentTotal, row, LeaderboardSpec.totalPoints.
  now rewrite fold_countExam.
Qed.


(** The run of [loadLeaderboard]: two arrays are allocated, the sorted
    totals and the ranked entries, and nothing else is written. *)
Lemma loadLeaderboard_run h s exams students predictions es ss ps :
  s !! exams = Some (Store.Exams es) ->
  s !! students = Some (Store.Users ss) ->
  s !! predictions = Some (Store.Predictions ps) ->
  loadLeaderboard h exams students predictions s
  = (S (length s),
     s ++ [Store.Totals (sort byTotalDesc (map (studentTotal h es ps) ss));
           Store.Entries (ranked h es ss ps)]).
Proof.
  intros He Hs Hp.
  unfold loadLeaderboard, Store.bind, Store.exams, Store.predictions, Store.users,
    Store.new, Store.sortTotals, Store.totals.
  rewrite He, Hp, Hs.
  rewrite list_lookup_middle by reflexivity.
  rewrite (insert_app_r_alt s _ (length s)) by lia.
  rewrite Nat.sub_diag. simpl.
  rewrite list_lookup_middle by reflexivity.
  rewrite length_app. simpl. rewrite <- app_assoc. simpl.
  f_equal. lia.
Qed.


Lemma unrank_ranked h es ss ps :
  map unrank (ranked h es ss ps) = sort byTotalDesc (map (studentTotal h es ps) ss).
Proof.
  unfold ranked, mapi. rewrite (mapi_from_map withRank unrank id).
  - apply map_id.
  - now intros [].
Qed.

(** The contents of the returned array after a run. *)
Lemma loadLeaderboard_entries h s exams students predictions es ss ps :
  s !! exams = Some (Store.Exams es) ->
  s !! students = Some (Store.Users ss) ->
  s !! predictions = Some (Store.Predictions ps) ->
  let run := loadLeaderboard h exams students predictions in
  Store.entries (Store.final run s) (Store.result run s) = ranked h es ss ps.
Proof.
  intros He Hs Hp run. unfold Store.final, Store.result, run.
  rewrite (loadLeaderboard_run h s exams students predictions es ss ps He Hs Hp).
  simpl. unfold Store.entries.
  rewrite (lookup_app_r s) by lia.
  replace (S (length s) - length s)%nat with 1%nat by lia. reflexivity.
Qed.

(** A run leaves every array that existed before it as it was. *)
Lemma loadLeaderboard_preserves h s exams students predictions es ss ps :
  s !! exams = Some (Store.Exams es) ->
  s !! students = Some (Store.Users ss) ->
  s !! predictions = Some (Store.Predictions ps) ->
  forall r : Store.ref,
    (r < length s)%nat ->
    Store.final (loadLeaderboard h exams students predictions) s !! r = s !! r.
Proof.
  intros He Hs Hp r Hr. unfold Store.final.
  rewrite (loadLeaderboard_run h s exams students predictions es ss ps He Hs Hp).
  simpl. now apply lookup_app_l.
Qed.

Lemma getExamStatus_atClock h now' exam :
  startOfLocalDay h now' = startOfLocalDay h (Date_now h) ->
  ExamUtils.getExamStatus (atClock h now') exam = ExamUtils.getExamStatus h exam.
Proof. intros H. unfold ExamUtils.getExamStatus. simpl. now rewrite H. Qed.

Lemma studentTotal_atClock h now' es ps student :
  startOfLocalDay h now' = startOfLocalDay h (Date_now h) ->
  studentTotal (atClock h now') es ps student = studentTotal h es ps student.
Proof.
  intros H. unfold studentTotal.
  assert (E : forall acc,
             fold_left (countExam (atClock h now') ps student) es acc
             = fold_left (countExam h ps student) es acc).
  { induction es as [|exam es IH]; intros acc; [reflexivity|].
    simpl. rewrite IH. f_equal. unfold countExam.
    now rewrite getExamStatus_atClock. }
  now rewrite E.
Qed.

(** The guard of the loop is on the exam, not on the student's entry:
    for records outside the data model's invariant, here stored points
    for an exam without a grade entry, the code counts the stored
    points. *)
Lemma leaderboard_counts_exam_without_grade_entry :
  ~ (forall (h : Host) (exams : list Exam.t) (predictions : list Prediction.t)
            (student : User.t),
        StudentTotal.totalPoints (studentTotal h exams predictions student)
        = totalPointsStated h exams predictions student).
Proof.
  intros H.
  specialize (H (Sample.utc (Sample.noon 19786))
                [Sample.exam "e1" "2024-03-01" true (Some ∅)]
                [Sample.prediction "e1" "1" Undefined Undefined (Val 5) Undefined]
                Sample.anna).
  vm_compute in H. discriminate.
Qed.

(** Under the invariant, an exam without a grade entry for the student
    adds nothing, counted or not. *)
Lemma examPoints_without_entry exams predictions student exam :
  storedOnlyWithGrade exams predictions ->
  In exam exams ->
  hasGradeEntry exam (User.id student) = false ->
  examPoints predictions student exam = 0.
Proof.
  intros Hinv Hexam Hnone. unfold examPoints.
  destruct (find _ predictions) as [p|] eqn:E; [|reflexivity].
  apply find_some in E as [Hp Hsame].
  unfold samePair in Hsame. apply andb_true_iff in Hsame as [Hid Hstudent].
  apply String.eqb_eq in Hid, Hstudent.
  assert (Hstored : forall n,
             Prediction.points1 p <> Val n /\ Prediction.points2 p <> Val n).
  { intros n. split; intros Hn.
    - pose proof (Hinv exam p n Hexam Hp Hid (or_introl Hn)) as H.
      rewrite Hstudent in H. congruence.
    - pose proof (Hinv exam p n Hexam Hp Hid (or_intror Hn)) as H.
      rewrite Hstudent in H. congruence. }
  assert (Hgrade : gradeOf exam (User.id student) = Undefined).
  { unfold hasGradeEntry in Hnone.
    destruct (gradeOf exam (User.id student)); congruence. }
  rewrite Hgrade. unfold storedElseTableElseZero.
  destruct (Prediction.points1 p) as [| |n1] eqn:E1;
    [| |exfalso; exact (proj1 (Hstored n1) eq_refl)];
    destruct (Prediction.points2 p) as [| |n2] eqn:E2;
    try (exfalso; exact (proj2 (Hstored n2) eq_refl));
    destruct (Prediction.prediction1 p), (Prediction.prediction2 p); reflexivity.
Qed.

Lemma hasGradeEntry_grades exam studentId :
  hasGradeEntry exam studentId = true -> Exam.grades exam <> None.
Proof.
  unfold hasGradeEntry, gradeOf. destruct (Exam.grades exam); [discriminate|].
  discriminate.
Qed.

(** Under the invariant, the sum over the exams the loop counts is the
    sum over the exams the specification names. *)
Lemma totalPoints_stated h exams predictions student :
  storedOnlyWithGrade exams predictions ->
  LeaderboardSpec.totalPoints h exams predictions student
  = totalPointsStated h exams predictions student.
Proof.
  intros Hinv. unfold LeaderboardSpec.totalPoints, totalPointsStated.
  assert (E : forall l,
             (forall exam, In exam l -> In exam exams) ->
             Zsum (map (examPoints predictions student)
                       (List.filter (contributes h) l))
             = Zsum (map (examPoints predictions student)
                         (List.filter (contributesStated h student) l))).
  { induction l as [|exam l IH]; intros Hl; [reflexivity|].
    assert (IH' := IH (fun e He => Hl e (or_intror He))).
    assert (Hexam : In exam exams) by (apply Hl; now left).
    simpl. unfold contributes at 1, contributesStated at 1.
    destruct (ExamStatus_eqb (ExamUtils.getExamStatus h exam) closed); simpl;
      [|exact IH'].
    destruct (hasGradeEntry exam (User.id student)) eqn:Hentry.
    - pose proof (hasGradeEntry_grades _ _ Hentry) as Hgrades.
      destruct (Exam.grades exam); [|congruence]. simpl. now rewrite IH'.
    - pose proof (examPoints_without_entry exams predictions student exam
                    Hinv Hexam Hentry) as Hzero.
      destruct (Exam.grades exam); simpl; [rewrite Hzero|]; rewrite IH'; lia. }
  apply E. auto.
Qed.

Lemma studentTotal_rowStated h exams predictions student :
  storedOnlyWithGrade exams predictions ->
  studentTotal h exams predictions student
  = rowStated h exams predictions student.
Proof.
  intros Hinv. rewrite studentTotal_row. unfold row, rowStated.
  now rewrite totalPoints_stated.
Qed.

(** C1.  When the prediction records keep the data model's invariant
    that points are stored only where the exam has a grade for the
    student, every student of the roster has a row, in roster order
    before sorting and somewhere in the leaderboard after it, whose
    [totalPoints] is the sum, over exactly the exams whose resolved status
    is closed and which have a grade entry for the student, of the two
    point values of the student's prediction record for the exam: for
    each, the stored points if any, else the point table's value of the
    prediction against the grade, else 0.  A student without contributing
    exams has a row with 0. *)
Theorem leaderboard_totalPoints (h : Host) (exams : list Exam.t)
    (predictions : list Prediction.t) (students : list User.t) :
  storedOnlyWithGrade exams predictions ->
  map (studentTotal h exams predictions) students
    = map (rowStated h exams predictions) students /\
  (forall student : User.t,
      List.filter (contributesStated h student) exams = [] ->
      StudentTotal.totalPoints (studentTotal h exams predictions student) = 0) /\
  (forall (s : Store.t) (exs sts prs : Store.ref),
      s !! exs = Some (Store.Exams exams) ->
      s !! sts = Some (Store.Users students) ->
      s !! prs = Some (Store.Predictions predictions) ->
      forall student : User.t,
        In student students ->
        let run := loadLeaderboard h exs sts prs in
        exists entry : LeaderboardEntry.t,
          In entry (Store.entries (Store.final run s) (Store.result run s)) /\
          unrank entry = rowStated h exams predictions student).
Proof.
  intros Hinv. split; [|split].
  - apply map_ext. intros student. now apply studentTotal_rowStated.
  - intros student Hnone. rewrite studentTotal_rowStated by exact Hinv. simpl.
    unfold totalPointsStated. now rewrite Hnone.
  - intros s exs sts prs He Hs Hp student Hin run.
    unfold run. rewrite (loadLeaderboard_entries h s exs sts prs _ _ _ He Hs Hp).
    assert (Hrow : In (rowStated h exams predictions student)
                      (map unrank (ranked h exams students predictions))).
    { rewrite unrank_ranked. eapply Permutation_in.
      - symmetry. apply sort_perm.
      - rewrite <- studentTotal_rowStated by exact Hinv. now apply in_map. }
    apply in_map_iff in Hrow as (entry & Hentry & Hin'). now exists entry.
Qed.

(** On 20 March: the exam of 1 March is closed by its date and has
    anna's grade, with 5 stored points for the first tip and 3 from the
    table for the second; the exam of 4 March is closed by hand and has a
    grade for ben only; the exam of 20 March is open. *)
Lemma leaderboard_totalPoints_witness :
  StudentTotal.totalPoints
    (studentTotal (Sample.utc (Sample.noon 19802))
       [Sample.exam "e1" "2024-03-01" false (Some {[ "1" := 5%float ]});
        Sample.exam "e2" "2024-03-04" true (Some {[ "2" := 4%float ]});
        Sample.exam "e3" "2024-03-20" false (Some {[ "1" := 4%float ]})]
       [Sample.prediction "e1" "1" (Val 5%float) (Val 4.5%float) (Val 5) Undefined;
        Sample.prediction "e2" "1" (Val 4%float) Undefined Undefined Undefined;
        Sample.prediction "e3" "1" (Val 4%float) Undefined Undefined Undefined]
       Sample.anna) = 8.
Proof.
  assert (Hinv : storedOnlyWithGrade
            [Sample.exam "e1" "2024-03-01" false (Some {[ "1" := 5%float ]});
             Sample.exam "e2" "2024-03-04" true (Some {[ "2" := 4%float ]});
             Sample.exam "e3" "2024-03-20" false (Some {[ "1" := 4%float ]})]
            [Sample.prediction "e1" "1" (Val 5%float) (Val 4.5%float) (Val 5) Undefined;
             Sample.prediction "e2" "1" (Val 4%float) Undefined Undefined Undefined;
             Sample.prediction "e3" "1" (Val 4%float) Undefined Undefined Undefined]).
  { intros exam p n Hexam Hp Hid Hpoints.
    destruct Hp as [<- | [<- | [<- | []]]];
      simpl in Hpoints; destruct Hpoints as [Hn | Hn]; try discriminate Hn.
    destruct Hexam as [<- | [<- | [<- | []]]]; try discriminate Hid.
    vm_compute. reflexivity. }
  pose proof (proj1 (leaderboard_totalPoints (Sample.utc (Sample.noon 19802))
                       _ _ [Sample.anna] Hinv)) as Hrows.
  apply (f_equal (fun rows => match rows with
                              | row :: _ => StudentTotal.totalPoints row
                              | [] => 0
                              end)) in Hrows.
  cbn [map] in Hrows.
  etransitivity; [exact Hrows | vm_compute; reflexivity].
Defined.


(** C5, as stated, fails in its last part: with the three arrays
    unchanged, a second call made when the clock has moved on to a day on
    which an exam has become closed returns a different leaderboard. *)
Lemma leaderboard_changes_with_clock :
  ~ (forall (h : Host) (s : Store.t) (exams students predictions : Store.ref)
            (now' : Z),
        let run := loadLeaderboard h exams students predictions in
        let run' := loadLeaderboard (atClock h now') exams students predictions in
        Store.entries (Store.final run' (Store.final run s))
                      (Store.result run' (Store.final run s))
        = Store.entries (Store.final run s) (Store.result run s)).
Proof.
  intros H.
  specialize (H (Sample.utc (Sample.noon 19786)) Sample.store 0%nat 1%nat 2%nat
                (Sample.noon 19802)).
  vm_compute in H. discriminate.
Qed.

(** C5, amended.  The leaderboard is sorted in descending order of
    [totalPoints]; it holds the students' rows, those of equal total in
    roster order; the rank of the entry at index [i] is [i + 1]; every
    array that existed before the call, the three inputs among them, is
    left as it was; and a second call on the unchanged arrays made on the
    same local day returns the same leaderboard and leaves the first one
    intact. *)
Theorem leaderboard_sorted_ranked (h : Host) (s : Store.t)
    (exams students predictions : Store.ref)
    (es : list Exam.t) (ss : list User.t) (ps : list Prediction.t) :
  s !! exams = Some (Store.Exams es) ->
  s !! students = Some (Store.Users ss) ->
  s !! predictions = Some (Store.Predictions ps) ->
  let run := loadLeaderboard h exams students predictions in
  let leaderboard := Store.entries (Store.final run s) (Store.result run s) in
  StronglySorted
    (fun a b => LeaderboardEntry.totalPoints b <= LeaderboardEntry.totalPoints a)
    leaderboard /\
  Permutation (map unrank leaderboard) (map (studentTotal h es ps) ss) /\
  (forall k : Z,
      List.filter (fun t => StudentTotal.totalPoints t =? k) (map unrank leaderboard)
      = List.filter (fun t => StudentTotal.totalPoints t =? k)
                    (map (studentTotal h es ps) ss)) /\
  (forall (i : nat) (entry : LeaderboardEntry.t),
      leaderboard !! i = Some entry ->
      LeaderboardEntry.rank entry = Z.of_nat i + 1) /\
  (forall r : Store.ref, (r < length s)%nat -> Store.final run s !! r = s !! r) /\
  (forall now' : Z,
      startOfLocalDay h now' = startOfLocalDay h (Date_now h) ->
      let s' := Store.final run s in
      let run' := loadLeaderboard (atClock h now') exams students predictions in
      Store.entries (Store.final run' s') (Store.result run' s') = leaderboard /\
      Store.entries (Store.final run' s') (Store.result run s) = leaderboard).
Proof.
  intros He Hs Hp run leaderboard.
  assert (Hl : leaderboard = ranked h es ss ps)
    by apply (loadLeaderboard_entries h s exams students predictions es ss ps He Hs Hp).
  pose proof (loadLeaderboard_preserves h s exams students predictions es ss ps
                He Hs Hp) as Hkeep.
  rewrite Hl. repeat apply conj.
  - unfold ranked, mapi.
    apply (mapi_from_sorted StudentTotal.totalPoints LeaderboardEntry.totalPoints).
    + reflexivity.
    + apply (sort_descending_sorted StudentTotal.totalPoints).
  - rewrite unrank_ranked. apply sort_perm.
  - intros k. rewrite unrank_ranked.
    apply (sort_descending_stable StudentTotal.totalPoints).
  - intros i entry Hi. unfold ranked, mapi in Hi. rewrite mapi_from_lookup in Hi.
    destruct (_ !! i) as [t|]; simpl in Hi; [|discriminate].
    injection Hi as <-. reflexivity.
  - exact Hkeep.
  - intros now' Hday s' run'.
    assert (He' : s' !! exams = Some (Store.Exams es)).
    { unfold s'. rewrite Hkeep; [exact He | now apply lookup_lt_Some in He]. }
    assert (Hs' : s' !! students = Some (Store.Users ss)).
    { unfold s'. rewrite Hkeep; [exact Hs | now apply lookup_lt_Some in Hs]. }
    assert (Hp' : s' !! predictions = Some (Store.Predictions ps)).
    { unfold s'. rewrite Hkeep; [exact Hp | now apply lookup_lt_Some in Hp]. }
    assert (Hsame : ranked (atClock h now') es ss ps = ranked h es ss ps).
    { unfold ranked. do 2 f_equal. apply map_ext. intros student.
      now apply studentTotal_atClock. }
    split.
    + unfold run'.
      rewrite (loadLeaderboard_entries _ s' exams students predictions es ss ps
                 He' Hs' Hp').
      exact Hsame.
    + pose proof (loadLeaderboard_preserves (atClock h now') s' exams students
                    predictions es ss ps He' Hs' Hp' (Store.result run s)) as Hold.
      unfold Store.entries at 1. fold run' in Hold. rewrite Hold.
      * fold (Store.entries s' (Store.result run s)). exact Hl.
      * unfold s', run, Store.final, Store.result.
        rewrite (loadLeaderboard_run h s exams students predictions es ss ps He Hs Hp).
        simpl. rewrite length_app. simpl. lia.
Qed.

(** On the sample store, seen on 20 March, the leaderboard is sorted. *)
Lemma leaderboard_sorted_ranked_witness :
  let run := loadLeaderboard (Sample.utc (Sample.noon 19802)) 0%nat 1%nat 2%nat in
  StronglySorted
    (fun a b => LeaderboardEntry.totalPoints b <= LeaderboardEntry.totalPoints a)
    (Store.entries (Store.final run Sample.store) (Store.result run Sample.store)).
Proof.
  exact (proj1 (leaderboard_sorted_ranked (Sample.utc (Sample.noon 19802))
                  Sample.store 0%nat 1%nat 2%nat _ _ _ eq_refl eq_refl eq_refl)).
Defined.

End LeaderboardClaims.

(** ** The per-exam ranking and the result rows *)

Section ProfileClaims.
Import Profile ProfileSpec.

Lemma or_zero_stored x : or_zero x = storedOrZero x.
Proof. destruct x as [| |z]; simpl; try reflexivity. destruct (z =? 0) eqn:E; lia. Qed.

(** Looking a student up among the exam's predictions is looking the pair
    up among all predictions. *)
Lemma find_examPredictions exam studentId predictions :
  find (fun p => String.eqb (Prediction.studentId p) studentId)
       (List.filter (fun p => String.eqb (Prediction.examId p) (Exam.id exam))
                    predictions)
  = find (Leaderboard.samePair exam studentId) predictions.
Proof.
  induction predictions as [|p ps IH]; [reflexivity|].
  simpl. unfold Leaderboard.samePair at 1.
  destruct (String.eqb (Prediction.examId p) (Exam.id exam)); simpl; [|exact IH].
  destruct (String.eqb (Prediction.studentId p) studentId); [reflexivity | exact IH].
Qed.

Lemma examRankings_cohort exam students predictions :
  examRankings exam students predictions
  = sort byTotalDesc (cohort exam students predictions).
Proof.
  unfold examRankings, cohort. f_equal. apply map_ext. intros student.
  unfold ranking, storedTotal. rewrite find_examPredictions.
  destruct (find _ predictions) as [p|]; simpl; [|reflexivity].
  now rewrite !or_zero_stored.
Qed.

Lemma storedTotal_id exam predictions s s' :
  User.id s = User.id s' ->
  storedTotal exam predictions s = storedTotal exam predictions s'.
Proof. unfold storedTotal. now intros ->. Qed.

(** The pair lookup reads the stored part of the records only. *)
Lemma find_storedPart exam exam' studentId predictions predictions' :
  Exam.id exam' = Exam.id exam ->
  map storedPart predictions' = map storedPart predictions ->
  option_map storedPart (find (Leaderboard.samePair exam' studentId) predictions')
  = option_map storedPart (find (Leaderboard.samePair exam studentId) predictions).
Proof.
  intros Hid. revert predictions'.
  induction predictions as [|p ps IH]; intros [|p' ps'] H; try discriminate;
    [reflexivity|].
  simpl in H. unfold storedPart at 1 2 in H. injection H as He Hs H1 H2 Hps.
  simpl. unfold Leaderboard.samePair at 1 3.
  rewrite Hid, He, Hs.
  destruct (_ && _); simpl; [|now apply IH].
  unfold storedPart. now rewrite He, Hs, H1, H2.
Qed.

Lemma storedTotal_storedPart exam exam' predictions predictions' student :
  Exam.id exam' = Exam.id exam ->
  map storedPart predictions' = map storedPart predictions ->
  storedTotal exam' predictions' student = storedTotal exam predictions student.
Proof.
  intros Hid H. unfold storedTotal.
  pose proof (find_storedPart exam exam' (User.id student) _ _ Hid H) as E.
  destruct (find _ predictions') as [p'|], (find _ predictions) as [p|];
    simpl in E; try discriminate; [|reflexivity].
  unfold storedPart in E. now injection E as _ _ -> ->.
Qed.

(** C6. For one exam, the total of each student of the cohort is the sum
    of the stored [points1] and [points2] of the student's prediction
    record, each 0 when missing and 0 without a record; nothing else of
    the records or of the exam is read, so the point table is never
    consulted.  The ranking is the cohort sorted in descending order of
    that total, students of equal total in input order.  For a target
    student of the cohort, the rank is the 1-based position of the
    student's entry in the ranking and the reported total is the
    student's total. *)
Theorem examRankings_stored_points (exam : Exam.t) (students : list User.t)
    (predictions : list Prediction.t) (user : User.t) :
  let rankings := examRankings exam students predictions in
  Permutation rankings (cohort exam students predictions) /\
  StronglySorted (fun a b => Ranking.totalPoints b <= Ranking.totalPoints a) rankings /\
  (forall k : Z,
      List.filter (fun r => Ranking.totalPoints r =? k) rankings
      = List.filter (fun r => Ranking.totalPoints r =? k)
                    (cohort exam students predictions)) /\
  (forall (exam' : Exam.t) (predictions' : list Prediction.t),
      Exam.id exam' = Exam.id exam ->
      map storedPart predictions' = map storedPart predictions ->
      examRankings exam' students predictions' = rankings) /\
  (In user students ->
   exists (n : nat) (entry : Ranking.t),
     userRank user rankings = Z.of_nat n + 1 /\
     rankings !! n = Some entry /\
     Ranking.studentId entry = User.id user /\
     (forall (m : nat) (other : Ranking.t),
         (m < n)%nat -> rankings !! m = Some other ->
         Ranking.studentId other <> User.id user) /\
     Ranking.totalPoints entry = storedTotal exam predictions user /\
     userTotalPoints user rankings = storedTotal exam predictions user).
Proof.
  intros rankings.
  assert (Hr : rankings = sort byTotalDesc (cohort exam students predictions))
    by apply examRankings_cohort.
  assert (Hperm : Permutation rankings (cohort exam students predictions))
    by (rewrite Hr; apply sort_perm).
  repeat apply conj.
  - exact Hperm.
  - rewrite Hr. apply (sort_descending_sorted Ranking.totalPoints).
  - intros k. rewrite Hr. apply (sort_descending_stable Ranking.totalPoints).
  - intros exam' predictions' Hid Hps. unfold rankings.
    rewrite !examRankings_cohort. f_equal. unfold cohort.
    apply map_ext. intros student. f_equal.
    now apply storedTotal_storedPart.
  - intros Hin.
    assert (Hmember :
      In {| Ranking.studentId := User.id user;
            Ranking.totalPoints := storedTotal exam predictions user |} rankings).
    { eapply Permutation_in; [symmetry; exact Hperm|].
      unfold cohort. apply in_map_iff. now exists user. }
    destruct (findIndex_first (isUser user) rankings _ Hmember)
      as (n & entry & Hi & Hn & Hentry & Hbefore & Hfind).
    { unfold isUser. simpl. apply String.eqb_refl. }
    assert (Hid : Ranking.studentId entry = User.id user)
      by (now apply String.eqb_eq).
    assert (Htotal : Ranking.totalPoints entry = storedTotal exam predictions user).
    { assert (Hc : In entry (cohort exam students predictions)).
      { eapply Permutation_in; [exact Hperm|].
        apply list_elem_of_In, list_elem_of_lookup. now exists n. }
      unfold cohort in Hc. apply in_map_iff in Hc as (s & <- & _).
      simpl in *. now apply storedTotal_id. }
    exists n, entry. repeat apply conj; try assumption.
    + unfold userRank. now rewrite Hi.
    + intros m other Hm Hother Hsame.
      specialize (Hbefore m other Hm Hother). unfold isUser in Hbefore.
      rewrite Hsame, String.eqb_refl in Hbefore. discriminate.
    + unfold userTotalPoints. rewrite Hfind. simpl.
      rewrite <- Htotal. destruct (Ranking.totalPoints entry =? 0) eqn:E; lia.
Qed.

(** With ben before anna in the cohort and 5 stored points for anna, the
    total reported for anna is 5. *)
Lemma examRankings_stored_points_witness :
  userTotalPoints Sample.anna
    (examRankings (Sample.exam "e1" "2024-03-01" true (Some {[ "1" := 5%float ]}))
       [Sample.ben; Sample.anna]
       [Sample.prediction "e1" "1" (Val 4%float) Undefined (Val 5) Undefined])
  = 5.
Proof.
  destruct (proj2 (proj2 (proj2 (proj2
              (examRankings_stored_points
                 (Sample.exam "e1" "2024-03-01" true (Some {[ "1" := 5%float ]}))
                 [Sample.ben; Sample.anna]
                 [Sample.prediction "e1" "1" (Val 4%float) Undefined (Val 5) Undefined]
                 Sample.anna))))
              (or_intror (or_introl eq_refl)))
    as (n & entry & _ & _ & _ & _ & _ & H).
  rewrite H. vm_compute. reflexivity.
Defined.

Lemma hasResult_flag user exam :
  hasResult user exam = true ->
  Exam.isClosed exam = true /\
  exists (grades : gmap string float) (g : float),
    Exam.grades exam = Some grades /\ grades !! User.id user = Some g /\
    truthy_number g = true.
Proof.
  unfold hasResult, Exam.grade. destruct (Exam.isClosed exam); [|discriminate].
  destruct (Exam.grades exam) as [grades|]; [|discriminate].
  destruct (grades !! User.id user) as [g|] eqn:E; [|discriminate].
  simpl. intros H. split; [reflexivity|]. now exists grades, g.
Qed.

Lemma filter_hasResult_flagged user exams :
  List.filter (hasResult user) (List.filter Exam.isClosed exams)
  = List.filter (hasResult user) exams.
Proof.
  induction exams as [|exam exams IH]; [reflexivity|]. simpl.
  destruct (Exam.isClosed exam) eqn:E; simpl; rewrite IH; [reflexivity|].
  unfold hasResult at 2. now rewrite E.
Qed.

(** C9. A result row stands for an exam whose [isClosed] flag is set and
    whose grades hold an entry for the student, so the rows are those of
    the flagged exams alone.  An exam that is closed by the date rule only
    yields no row, although the leaderboard, which goes by the resolved
    status, counts it for a student with a prediction record. *)
Theorem results_need_closed_flag (h : Host) (user : User.t)
    (exams : list Exam.t) (predictions : list Prediction.t)
    (students : list User.t) :
  (forall row : ExamResult.t,
      In row (loadExamResults h user exams predictions students) ->
      exists (exam : Exam.t) (grades : gmap string float) (g : float),
        In exam exams /\ ExamResult.examId row = Exam.id exam /\
        Exam.isClosed exam = true /\
        Exam.grades exam = Some grades /\ grades !! User.id user = Some g /\
        ExamResult.grade row = Val g) /\
  loadExamResults h user exams predictions students
    = loadExamResults h user (List.filter Exam.isClosed exams) predictions students /\
  (forall exam : Exam.t,
      Exam.isClosed exam = false ->
      ExamUtils.getExamStatus h exam = closed ->
      loadExamResults h user [exam] predictions students = [] /\
      (forall (grades : gmap string float) (allPredictions : list Prediction.t),
          Exam.grades exam = Some grades ->
          StudentTotal.totalPoints
            (Leaderboard.studentTotal h (exam :: exams) allPredictions user)
          = LeaderboardSpec.examPoints allPredictions user exam
            + StudentTotal.totalPoints
                (Leaderboard.studentTotal h exams allPredictions user))).
Proof.
  repeat apply conj.
  - intros row Hrow. unfold loadExamResults in Hrow.
    eapply Permutation_in in Hrow; [|apply sort_perm].
    apply in_map_iff in Hrow as (exam & <- & Hexam).
    apply filter_In in Hexam as [Hin Hres].
    destruct (hasResult_flag user exam Hres) as (Hflag & grades & g & Hg & Hentry & _).
    exists exam, grades, g. repeat apply conj; try assumption; try reflexivity.
    simpl. rewrite Hg. unfold Exam.grade. now rewrite Hentry.
  - unfold loadExamResults. now rewrite filter_hasResult_flagged.
  - intros exam Hflag Hstatus. split.
    + unfold loadExamResults. simpl. unfold hasResult. now rewrite Hflag.
    + intros grades allPredictions Hgrades.
      rewrite !studentTotal_row. simpl.
      unfold LeaderboardSpec.totalPoints. simpl.
      unfold LeaderboardSpec.contributes at 1. rewrite Hstatus, Hgrades. reflexivity.
Qed.

(** An unflagged exam of 1 March, seen on 20 March, yields no row, and
    the leaderboard counts anna's 5 stored points for it. *)
Lemma results_need_closed_flag_witness :
  loadExamResults (Sample.utc (Sample.noon 19802)) Sample.anna
    [Sample.exam "e1" "2024-03-01" false (Some {[ "1" := 5%float ]})]
    [Sample.prediction "e1" "1" (Val 5%float) Undefined (Val 5) Undefined]
    [Sample.ben; Sample.anna] = [] /\
  StudentTotal.totalPoints
    (Leaderboard.studentTotal (Sample.utc (Sample.noon 19802))
       [Sample.exam "e1" "2024-03-01" false (Some {[ "1" := 5%float ]})]
       [Sample.prediction "e1" "1" (Val 5%float) Undefined (Val 5) Undefined]
       Sample.anna) = 5.
Proof.
  destruct (proj2 (proj2 (results_need_closed_flag
              (Sample.utc (Sample.noon 19802)) Sample.anna []
              [Sample.prediction "e1" "1" (Val 5%float) Undefined (Val 5) Undefined]
              [Sample.ben; Sample.anna]))
              (Sample.exam "e1" "2024-03-01" false (Some {[ "1" := 5%float ]}))
              eq_refl eq_refl) as [Hrows Hcount].
  split; [exact Hrows|].
  rewrite (Hcount _ _ eq_refl). vm_compute. reflexivity.
Defined.

End ProfileClaims.

(** * Further properties of the code *)

(** ** Tips and the life of an exam *)

Section TipsFacts.
Import ExamUtils.

(** X1. Tips may be submitted exactly when the exam is not closed by hand
    and, if its date is valid, fewer than five times 24 hours lie between
    the start of the exam's local day and the start of today; an exam
    whose date cannot be parsed accepts tips until it is closed by hand. *)
Theorem canSubmitTips_window (h : Host) (exam : Exam.t) :
  canSubmitTips h exam = true <->
  Exam.isClosed exam = false /\
  (forall examDate : Z,
      Date_parse h (Exam.date exam) = Some examDate ->
      startOfLocalDay h (Date_now h) - startOfLocalDay h examDate < 5 * msPerDay).
Proof.
  unfold canSubmitTips, getExamStatus.
  destruct (Exam.isClosed exam); simpl; [split; [discriminate | intros []; discriminate]|].
  destruct (Date_parse h (Exam.date exam)) as [e|]; simpl.
  - set (d := startOfLocalDay h (Date_now h) - startOfLocalDay h e).
    assert (Hd : d / msPerDay < 5 <-> d < 5 * msPerDay).
    { change msPerDay with 86400000. split; intros H.
      - apply Z.nle_gt. intros Hge.
        pose proof (Z.div_le_lower_bound d 86400000 5 ltac:(lia) ltac:(lia)). lia.
      - apply Z.div_lt_upper_bound; lia. }
    destruct (Z.leb_spec 1 (d / msPerDay)), (Z.ltb_spec (d / msPerDay) 5),
      (Z.leb_spec 5 (d / msPerDay)); simpl; try lia;
      (split;
       [ intros Hb;
         first [ discriminate Hb
               | split; [reflexivity|]; intros x Hx; injection Hx as <-; fold d; lia ]
       | intros [_ Hw]; specialize (Hw e eq_refl); fold d in Hw;
         try reflexivity; lia ]).
  - split; [|reflexivity]. intros _. split; [reflexivity | discriminate].
Qed.

Lemma canSubmitTips_window_witness :
  canSubmitTips (Sample.utc (Sample.noon 19786))
                (Sample.exam "e1" "2024-03-01" false None) = true.
Proof.
  apply (canSubmitTips_window (Sample.utc (Sample.noon 19786))
           (Sample.exam "e1" "2024-03-01" false None)).
  split; [reflexivity|]. intros examDate H. vm_compute in H.
  injection H as <-. vm_compute. reflexivity.
Defined.

(** X2. On a host whose start of day never moves back as time goes on,
    the status of an exam never moves back either: open, then evaluation,
    then closed; and once tips are refused they stay refused. *)
Theorem getExamStatus_never_reopens (h : Host) (exam : Exam.t) (t1 t2 : Z) :
  (forall a b : Z, a <= b -> startOfLocalDay h a <= startOfLocalDay h b) ->
  t1 <= t2 ->
  statusRank (getExamStatus (atClock h t1) exam)
    <= statusRank (getExamStatus (atClock h t2) exam) /\
  (canSubmitTips (atClock h t1) exam = false ->
   canSubmitTips (atClock h t2) exam = false).
Proof.
  intros Hmono Ht. unfold canSubmitTips, getExamStatus. simpl.
  destruct (Exam.isClosed exam); simpl; [split; [lia | reflexivity]|].
  destruct (Date_parse h (Exam.date exam)) as [e|]; simpl; [|split; [lia | trivial]].
  set (d1 := (startOfLocalDay h t1 - startOfLocalDay h e) / msPerDay).
  set (d2 := (startOfLocalDay h t2 - startOfLocalDay h e) / msPerDay).
  assert (Hd : d1 <= d2).
  { apply Z.div_le_mono; [unfold msPerDay; lia|]. specialize (Hmono t1 t2 Ht). lia. }
  destruct (Z.leb_spec 1 d1), (Z.ltb_spec d1 5), (Z.leb_spec 5 d1);
    destruct (Z.leb_spec 1 d2), (Z.ltb_spec d2 5), (Z.leb_spec 5 d2);
    simpl; split; try lia; try reflexivity; try discriminate.
Qed.

Lemma startOfLocalDay_utc_mono now a b :
  a <= b -> startOfLocalDay (Sample.utc now) a <= startOfLocalDay (Sample.utc now) b.
Proof.
  intros H. simpl. unfold msPerDay. change (1000 * 60 * 60 * 24) with 86400000.
  rewrite !Z.mod_eq by lia.
  pose proof (Z.div_le_mono a b 86400000 ltac:(lia) H). lia.
Qed.

Lemma getExamStatus_never_reopens_witness :
  statusRank (getExamStatus (atClock (Sample.utc 0) (Sample.noon 19783))
                            (Sample.exam "e1" "2024-03-01" false None))
  <= statusRank (getExamStatus (atClock (Sample.utc 0) (Sample.noon 19802))
                               (Sample.exam "e1" "2024-03-01" false None)).
Proof.
  apply (getExamStatus_never_reopens (Sample.utc 0)
           (Sample.exam "e1" "2024-03-01" false None)
           (Sample.noon 19783) (Sample.noon 19802)
           (startOfLocalDay_utc_mono 0)).
  vm_compute. discriminate.
Defined.

(** X3. [hasNoTips] and [hasBothTips] never hold together, and when no
    record of the collection is for the exam and the student, the empty
    collection included, the first holds and the second does not. *)
Theorem tips_exclusive (examId studentId : string) (predictions : list Prediction.t) :
  hasNoTips examId studentId predictions
    && hasBothTips examId studentId predictions = false /\
  ((forall p : Prediction.t,
       In p predictions ->
       Prediction.examId p <> examId \/ Prediction.studentId p <> studentId) ->
   hasNoTips examId studentId predictions = true /\
   hasBothTips examId studentId predictions = false).
Proof.
  unfold hasNoTips, hasBothTips. split.
  - destruct (tipsOf examId studentId predictions) as [p|]; [|reflexivity].
    destruct (Prediction.prediction1 p), (Prediction.prediction2 p); reflexivity.
  - intros Hnone.
    destruct (tipsOf examId studentId predictions) as [p|] eqn:E; [|now split].
    unfold tipsOf, find in E. apply find_some in E as [Hin Hp].
    apply andb_true_iff in Hp as [He Hs].
    apply String.eqb_eq in He, Hs. destruct (Hnone p Hin); contradiction.
Qed.

Lemma tips_exclusive_witness :
  hasNoTips "e1" "2" [Sample.prediction "e1" "1" (Val 5%float) Undefined Undefined Undefined]
  = true.
Proof.
  apply (proj2 (tips_exclusive "e1" "2"
    [Sample.prediction "e1" "1" (Val 5%float) Undefined Undefined Undefined])).
  intros p [<- | []]. right. discriminate.
Defined.

(** X4. Only [undefined] counts as a missing tip: when the record found
    for the exam and the student holds [null] for both predictions,
    [hasBothTips] holds and [hasNoTips] does not, although neither
    prediction can earn points, whatever the grade. *)
Theorem null_tips_count_as_given (examId studentId : string)
    (predictions : list Prediction.t) (prediction : Prediction.t) :
  tipsOf examId studentId predictions = Some prediction ->
  Prediction.prediction1 prediction = Null ->
  Prediction.prediction2 prediction = Null ->
  hasBothTips examId studentId predictions = true /\
  hasNoTips examId studentId predictions = false /\
  (forall grade : nullable float,
      Points.calculatePredictionPoints (Prediction.prediction1 prediction) grade
        = Undefined /\
      Points.calculatePredictionPoints (Prediction.prediction2 prediction) grade
        = Undefined).
Proof.
  intros Hfound H1 H2. unfold hasBothTips, hasNoTips. rewrite Hfound, H1, H2.
  repeat split; reflexivity.
Qed.

Lemma null_tips_count_as_given_witness :
  hasBothTips "e1" "1" [Sample.prediction "e1" "1" Null Null Undefined Undefined] = true.
Proof.
  apply (null_tips_count_as_given "e1" "1"
           [Sample.prediction "e1" "1" Null Null Undefined Undefined]
           (Sample.prediction "e1" "1" Null Null Undefined Undefined)
           eq_refl eq_refl eq_refl).
Defined.

End TipsFacts.

(** ** Sorting exams for display *)

Section ExamOrder.

Lemma insert_ext_in {A} (f g : A -> A -> Z) x l :
  (forall y, In y l -> f x y = g x y) -> insert f x l = insert g x l.
Proof.
  induction l as [|y l IH]; intros H; [reflexivity|]. simpl.
  rewrite (H y) by now left. rewrite IH; [reflexivity|].
  intros z Hz. apply H. now right.
Qed.

(** [sort] only consults the comparison function on elements of the
    array. *)
Lemma sort_ext_in {A} (f g : A -> A -> Z) l :
  (forall a b, In a l -> In b l -> f a b = g a b) -> sort f l = sort g l.
Proof.
  induction l as [|x l IH]; intros H; [reflexivity|]. simpl.
  rewrite IH by (intros a b Ha Hb; apply H; now right).
  apply insert_ext_in. intros y Hy. apply H; [now left|].
  right. eapply Permutation_in; [apply sort_perm | exact Hy].
Qed.

Lemma sorted_lookup {A} (R : A -> A -> Prop) l (i j : nat) a b :
  StronglySorted R l -> (i < j)%nat -> l !! i = Some a -> l !! j = Some b -> R a b.
Proof.
  intros Hl. revert i j. induction Hl as [|x l Hl IH Hx]; intros i j Hij Hi Hj.
  - discriminate.
  - destruct j as [|j]; [lia|]. simpl in Hj. destruct i as [|i]; simpl in Hi.
    + injection Hi as <-. rewrite Forall_forall in Hx. apply Hx.
      apply list_elem_of_lookup. now exists j.
    + apply (IH i j); [lia | assumption | assumption].
Qed.

Lemma byDateAscending_valid h a b :
  examTime h a <> None -> examTime h b <> None ->
  byDateAscending h a b = descending (fun e => - timeOr0 h e) a b.
Proof.
  unfold byDateAscending, descending, timeOr0.
  destruct (examTime h a), (examTime h b); try congruence. intros _ _. lia.
Qed.

Lemma byDateDescending_valid h a b :
  examTime h a <> None -> examTime h b <> None ->
  byDateDescending h a b = descending (timeOr0 h) a b.
Proof.
  unfold byDateDescending, descending, timeOr0.
  destruct (examTime h a), (examTime h b); congruence.
Qed.

(** The sorted list [sortExamsByStatus] builds from the elements of its
    argument. *)
Lemma sortExamsByStatus_run h s exams es status :
  s !! exams = Some (Store.Exams es) ->
  sortExamsByStatus h exams status s
  = (length s,
     s ++ [Store.Exams
             (sort (if ExamStatus_eqb status open || ExamStatus_eqb status evaluation
                    then byDateAscending h else byDateDescending h) es)]).
Proof.
  intros He. unfold sortExamsByStatus, Store.bind, Store.exams, Store.new. rewrite He.
  destruct (ExamStatus_eqb status open || ExamStatus_eqb status evaluation);
    unfold sortExams; rewrite list_lookup_middle by reflexivity;
    rewrite (insert_app_r_alt s _ (length s)) by lia;
    rewrite Nat.sub_diag; reflexivity.
Qed.

Lemma sortExamsByStatus_contents h s exams es status :
  s !! exams = Some (Store.Exams es) ->
  let run := sortExamsByStatus h exams status in
  examsAt (Store.final run s) (Store.result run s)
  = sort (if ExamStatus_eqb status open || ExamStatus_eqb status evaluation
          then byDateAscending h else byDateDescending h) es.
Proof.
  intros He run. unfold run, Store.final, Store.result, examsAt, Store.exams.
  rewrite (sortExamsByStatus_run h s exams es status He). simpl.
  now rewrite list_lookup_middle.
Qed.

Lemma filter_hasTime h (key : Exam.t -> Z) (l : list Exam.t) (t k : Z) :
  (forall e, In e l -> hasTime h t e = (key e =? k)) ->
  List.filter (hasTime h t) l = List.filter (fun e => key e =? k) l.
Proof.
  intros H. induction l as [|x l IH]; [reflexivity|]. simpl.
  rewrite (H x) by now left. rewrite IH; [reflexivity|].
  intros e' He'. apply H. now right.
Qed.

Lemma sort_byDateAscending h es :
  (forall e : Exam.t, In e es -> examTime h e <> None) ->
  let sorted := sort (byDateAscending h) es in
  (forall (i j : nat) (a b : Exam.t) (ta tb : Z),
      (i < j)%nat -> sorted !! i = Some a -> sorted !! j = Some b ->
      examTime h a = Some ta -> examTime h b = Some tb -> ta <= tb) /\
  (forall t : Z, List.filter (hasTime h t) sorted = List.filter (hasTime h t) es).
Proof.
  intros Hvalid sorted. unfold sorted.
  rewrite (sort_ext_in (byDateAscending h) (descending (fun e => - timeOr0 h e)))
    by (intros; apply byDateAscending_valid; auto).
  split.
  - intros i j a b ta tb Hij Hi Hj Ha Hb.
    pose proof (sorted_lookup _ _ i j a b (sort_descending_sorted _ es) Hij Hi Hj) as H.
    unfold notBelow, timeOr0 in H. rewrite Ha, Hb in H. lia.
  - intros t.
    assert (Hkey : forall e, In e es -> hasTime h t e = (- timeOr0 h e =? - t)).
    { intros e Hin. specialize (Hvalid e Hin). unfold hasTime, timeOr0.
      destruct (examTime h e) as [t'|]; [|congruence].
      destruct (Z.eqb_spec t' t), (Z.eqb_spec (- t') (- t)); try reflexivity; lia. }
    rewrite (filter_hasTime h (fun e => - timeOr0 h e) _ t (- t)),
      (filter_hasTime h (fun e => - timeOr0 h e) es t (- t)); try exact Hkey.
    + apply (sort_descending_stable (fun e => - timeOr0 h e)).
    + intros e Hin. apply Hkey. eapply Permutation_in; [apply sort_perm | exact Hin].
Qed.

Lemma sort_byDateDescending h es :
  (forall e : Exam.t, In e es -> examTime h e <> None) ->
  let sorted := sort (byDateDescending h) es in
  (forall (i j : nat) (a b : Exam.t) (ta tb : Z),
      (i < j)%nat -> sorted !! i = Some a -> sorted !! j = Some b ->
      examTime h a = Some ta -> examTime h b = Some tb -> tb <= ta) /\
  (forall t : Z, List.filter (hasTime h t) sorted = List.filter (hasTime h t) es).
Proof.
  intros Hvalid sorted. unfold sorted.
  rewrite (sort_ext_in (byDateDescending h) (descending (timeOr0 h)))
    by (intros; apply byDateDescending_valid; auto).
  split.
  - intros i j a b ta tb Hij Hi Hj Ha Hb.
    pose proof (sorted_lookup _ _ i j a b (sort_descending_sorted _ es) Hij Hi Hj) as H.
    unfold notBelow, timeOr0 in H. rewrite Ha, Hb in H. lia.
  - intros t.
    assert (Hkey : forall e, In e es -> hasTime h t e = (timeOr0 h e =? t)).
    { intros e Hin. specialize (Hvalid e Hin). unfold hasTime, timeOr0.
      destruct (examTime h e) as [t'|]; [reflexivity | congruence]. }
    rewrite (filter_hasTime h (timeOr0 h) _ t t),
      (filter_hasTime h (timeOr0 h) es t t); try exact Hkey.
    + apply (sort_descending_stable (timeOr0 h)).
    + intros e Hin. apply Hkey. eapply Permutation_in; [apply sort_perm | exact Hin].
Qed.

(** X5. When every date is valid, [sortExamsByStatus] orders the exams by
    date, earliest first for the statuses open and evaluation and latest
    first for closed, and exams of one and the same date keep their input
    order; the status passed in decides, not the status of the exams. *)
Theorem sortExamsByStatus_order (h : Host) (s : Store.t) (exams : Store.ref)
    (es : list Exam.t) (status : ExamStatus) :
  s !! exams = Some (Store.Exams es) ->
  (forall e : Exam.t, In e es -> examTime h e <> None) ->
  let run := sortExamsByStatus h exams status in
  let sorted := examsAt (Store.final run s) (Store.result run s) in
  (forall (i j : nat) (a b : Exam.t) (ta tb : Z),
      (i < j)%nat -> sorted !! i = Some a -> sorted !! j = Some b ->
      examTime h a = Some ta -> examTime h b = Some tb ->
      if ExamStatus_eqb status closed then tb <= ta else ta <= tb) /\
  (forall t : Z,
      List.filter (hasTime h t) sorted = List.filter (hasTime h t) es).
Proof.
  intros He Hvalid run sorted.
  assert (Hs : sorted
               = sort (if ExamStatus_eqb status open || ExamStatus_eqb status evaluation
                       then byDateAscending h else byDateDescending h) es)
    by apply (sortExamsByStatus_contents h s exams es status He).
  rewrite Hs. destruct status; simpl.
  - exact (sort_byDateAscending h es Hvalid).
  - exact (sort_byDateAscending h es Hvalid).
  - exact (sort_byDateDescending h es Hvalid).
Qed.

Lemma sampleExams_valid :
  forall e : Exam.t,
    In e [SampleExams.later; SampleExams.earlier] ->
    examTime (Sample.utc 0) e <> None.
Proof. intros e [<- | [<- | []]]; vm_compute; discriminate. Qed.

(** Sorted for display as open exams, the sample exams stand earliest
    first. *)
Lemma sortExamsByStatus_order_witness :
  let run := sortExamsByStatus (Sample.utc 0) 0%nat open in
  List.filter (hasTime (Sample.utc 0) (19783 * ExamUtils.msPerDay))
    (examsAt (Store.final run SampleExams.store) (Store.result run SampleExams.store))
  = [SampleExams.earlier].
Proof.
  exact (proj2 (sortExamsByStatus_order (Sample.utc 0) SampleExams.store 0%nat
                  [SampleExams.later; SampleExams.earlier] open eq_refl
                  sampleExams_valid) (19783 * ExamUtils.msPerDay)).
Defined.

(** X6. [sortExamsByStatus] returns a new array that holds the exams of
    its argument in some order, whatever their dates; the argument and
    every other array stay as they were; and the statuses open and
    evaluation give the same result. *)
Theorem sortExamsByStatus_copies (h : Host) (s : Store.t) (exams : Store.ref)
    (es : list Exam.t) (status : ExamStatus) :
  s !! exams = Some (Store.Exams es) ->
  let run := sortExamsByStatus h exams status in
  Store.result run s = length s /\
  Permutation (examsAt (Store.final run s) (Store.result run s)) es /\
  (forall r : Store.ref, (r < length s)%nat -> Store.final run s !! r = s !! r) /\
  examsAt (Store.final run s) exams = es /\
  (let atOpen := sortExamsByStatus h exams open in
   let atEvaluation := sortExamsByStatus h exams evaluation in
   examsAt (Store.final atOpen s) (Store.result atOpen s)
   = examsAt (Store.final atEvaluation s) (Store.result atEvaluation s)).
Proof.
  intros He run.
  assert (Hkeep : forall r : Store.ref,
             (r < length s)%nat -> Store.final run s !! r = s !! r).
  { intros r Hr. unfold run, Store.final.
    rewrite (sortExamsByStatus_run h s exams es status He). simpl.
    now apply lookup_app_l. }
  repeat apply conj.
  - unfold run, Store.result. now rewrite (sortExamsByStatus_run h s exams es status He).
  - unfold run. rewrite (sortExamsByStatus_contents h s exams es status He).
    apply sort_perm.
  - exact Hkeep.
  - unfold examsAt, Store.exams. simpl.
    rewrite Hkeep; [now rewrite He | now apply lookup_lt_Some in He].
  - intros atOpen atEvaluation. unfold atOpen, atEvaluation.
    now rewrite !(sortExamsByStatus_contents h s exams es _ He).
Qed.

Lemma sortExamsByStatus_copies_witness :
  let run := sortExamsByStatus (Sample.utc 0) 0%nat closed in
  examsAt (Store.final run SampleExams.store) 0%nat
  = [SampleExams.later; SampleExams.earlier].
Proof.
  exact (proj1 (proj2 (proj2 (proj2
    (sortExamsByStatus_copies (Sample.utc 0) SampleExams.store 0%nat
       [SampleExams.later; SampleExams.earlier] closed eq_refl))))).
Defined.

Lemma NoDup_map_inj {A B} (f : A -> B) (l : list A) (x y : A) :
  NoDup (map f l) -> In x l -> In y l -> f x = f y -> x = y.
Proof.
  induction l as [|a l IH]; [intros _ []|]. simpl.
  intros Hnd Hx Hy Hf. apply NoDup_cons in Hnd as [Ha Hnd].
  destruct Hx as [-> | Hx], Hy as [-> | Hy]; try reflexivity.
  - exfalso. apply Ha. rewrite Hf. apply list_elem_of_In. now apply in_map.
  - exfalso. apply Ha. rewrite <- Hf. apply list_elem_of_In. now apply in_map.
  - now apply IH.
Qed.

Lemma StronglySorted_rev {A} (R R' : A -> A -> Prop) l :
  (forall a b, R a b -> R' b a) ->
  StronglySorted R l -> StronglySorted R' (rev l).
Proof.
  intros HR. induction 1 as [|x l Hl IH Hx]; simpl; [constructor|].
  apply StronglySorted_app_2; [|exact IH | repeat constructor].
  intros a b Ha Hb. apply list_elem_of_singleton in Hb as ->.
  rewrite Forall_forall in Hx. apply HR, Hx.
  apply list_elem_of_In in Ha. apply list_elem_of_In. now apply in_rev.
Qed.

(** X7. When the dates are valid and no two exams share one, the order
    for closed exams is exactly the reverse of the order for open
    exams. *)
Theorem closed_order_reverses_open_order (h : Host) (s : Store.t)
    (exams : Store.ref) (es : list Exam.t) :
  s !! exams = Some (Store.Exams es) ->
  (forall e : Exam.t, In e es -> examTime h e <> None) ->
  NoDup (map (examTime h) es) ->
  let atOpen := sortExamsByStatus h exams open in
  let atClosed := sortExamsByStatus h exams closed in
  examsAt (Store.final atClosed s) (Store.result atClosed s)
  = rev (examsAt (Store.final atOpen s) (Store.result atOpen s)).
Proof.
  intros He Hvalid Hnd atOpen atClosed. unfold atOpen, atClosed.
  rewrite !(sortExamsByStatus_contents h s exams es _ He). simpl.
  rewrite (sort_ext_in (byDateAscending h) (descending (fun e => - timeOr0 h e)))
    by (intros; apply byDateAscending_valid; auto).
  rewrite (sort_ext_in (byDateDescending h) (descending (timeOr0 h)))
    by (intros; apply byDateDescending_valid; auto).
  apply (StronglySorted_unique_strong (notBelow (timeOr0 h))).
  - intros x1 x2 H1 H2 R12 R21. unfold notBelow in R12, R21.
    apply list_elem_of_In in H1, H2.
    eapply Permutation_in in H1; [|apply sort_perm].
    apply in_rev in H2. eapply Permutation_in in H2; [|apply sort_perm].
    apply (NoDup_map_inj (examTime h) es x1 x2 Hnd H1 H2).
    pose proof (Hvalid x1 H1). pose proof (Hvalid x2 H2). unfold timeOr0 in *.
    destruct (examTime h x1), (examTime h x2); try congruence. f_equal. lia.
  - apply sort_descending_sorted.
  - apply (StronglySorted_rev (notBelow (fun e => - timeOr0 h e))).
    + unfold notBelow. intros a b. lia.
    + apply sort_descending_sorted.
  - rewrite sort_perm. rewrite <- Permutation_rev. symmetry. apply sort_perm.
Qed.

Lemma closed_order_reverses_open_order_witness :
  let atOpen := sortExamsByStatus (Sample.utc 0) 0%nat open in
  let atClosed := sortExamsByStatus (Sample.utc 0) 0%nat closed in
  examsAt (Store.final atClosed SampleExams.store) (Store.result atClosed SampleExams.store)
  = rev (examsAt (Store.final atOpen SampleExams.store)
                 (Store.result atOpen SampleExams.store)).
Proof.
  apply (closed_order_reverses_open_order (Sample.utc 0) SampleExams.store 0%nat
           [SampleExams.later; SampleExams.earlier] eq_refl sampleExams_valid).
  vm_compute. repeat constructor; intros H; inversion H; subst;
    try discriminate; match goal with H' : _ ∈ [] |- _ => inversion H' | _ => idtac end.
  all: match goal with H' : _ ∈ _ |- _ => inversion H' end.
Defined.

End ExamOrder.

(** ** More on the point table *)

Section PointTableMore.
Import Points.

Lemma SFabs_round_aux s s' m e l :
  SFabs (binary_round_aux prec emax s m e l)
  = SFabs (binary_round_aux prec emax s' m e l).
Proof.
  unfold binary_round_aux.
  destruct (shr_fexp prec emax m e l) as [r1 e1].
  destruct (shr_fexp prec emax _ e1 loc_Exact) as [r2 e2].
  destruct (shr_m r2); try reflexivity.
  destruct (e2 <=? emax - prec); reflexivity.
Qed.

Lemma SFabs_normalize_opp m e z z' :
  SFabs (binary_normalize prec emax m e z)
  = SFabs (binary_normalize prec emax (- m) e z').
Proof.
  destruct m as [|m|m]; simpl; try reflexivity; unfold binary_round;
    destruct (shl_align _ _ _); apply SFabs_round_aux.
Qed.

(** The magnitude of a difference does not depend on the order of its
    operands. *)
Lemma SFabs_sub_comm x y : SFabs (SF64sub x y) = SFabs (SF64sub y x).
Proof.
  unfold SF64sub, SFsub.
  destruct x as [[]|[]| |sx mx ex], y as [[]|[]| |sy my ey]; try reflexivity.
  rewrite (Z.min_comm ey ex).
  rewrite (SFabs_normalize_opp _ _ false false). f_equal. f_equal. lia.
Qed.

Lemma abs_sub_comm p a : abs (p - a) = abs (a - p).
Proof.
  apply Prim2SF_inj. rewrite !abs_spec, !sub_spec. apply SFabs_sub_comm.
Qed.

(** X8. The point table is symmetric: a prediction above the grade earns
    what the same distance below it earns, for all numbers, NaN and the
    infinities included. *)
Theorem calculatePoints_symmetric (p a : float) :
  calculatePoints p a = calculatePoints a p.
Proof.
  rewrite !calculatePoints_difference. unfold Math_abs. now rewrite abs_sub_comm.
Qed.

(** The difference of a number with itself. *)
Lemma abs_sub_diag p :
  abs (p - p) = if is_finite p then 0%float else nan.
Proof.
  apply Prim2SF_inj. rewrite abs_spec, sub_spec.
  unfold is_finite, is_nan, is_infinity.
  rewrite !FloatAxioms.eqb_spec, abs_spec.
  destruct (Prim2SF p) as [[]|[]| |[] m e]; try reflexivity.
  all: unfold SF64sub, SFsub, SFeqb, SFcompare, SFabs, cond_Zopp;
    rewrite Z.sub_diag, Z.compare_refl;
    change (Pos.compare_cont Eq m m) with (Pos.compare m m);
    rewrite Pos.compare_refl; reflexivity.
Qed.

(** X9. A prediction equal to the grade earns 5 points exactly when the
    grade is a finite number; for an infinite grade, as for NaN, the
    difference is NaN and the table gives 0. *)
Theorem calculatePoints_exact (p : float) :
  calculatePoints p p = if is_finite p then 5 else 0.
Proof.
  rewrite calculatePoints_difference. unfold Math_abs. rewrite abs_sub_diag.
  destruct (is_finite p); reflexivity.
Qed.

(** X10. On the grade options, the points are 5 less the number of
    quarter steps between prediction and grade, and 0 from five steps
    on. *)
Theorem calculatePoints_on_grade_options (fuel : nat) (options : list float) :
  (22 <= fuel)%nat ->
  getGradeOptions fuel = Some options ->
  forall (i j : nat) (p a : float),
    options !! i = Some p -> options !! j = Some a ->
    calculatePoints p a = Z.max 0 (5 - quarterSteps i j).
Proof.
  intros Hfuel Hrun.
  replace fuel with (22 + (fuel - 22))%nat in Hrun by lia.
  rewrite getGradeOptions_runs in Hrun. injection Hrun as <-.
  intros i j p a Hi Hj.
  do 21 (destruct i as [|i];
         [ cbn in Hi; simplify_eq;
           do 21 (destruct j as [|j];
                  [cbn in Hj; simplify_eq; vm_compute; reflexivity|]);
           discriminate |]).
  discriminate.
Qed.

Lemma calculatePoints_on_grade_options_witness :
  calculatePoints 1.5 2.25 = 2.
Proof.
  exact (calculatePoints_on_grade_options 22 _ ltac:(lia) (getGradeOptions_runs 0)
           2 5 1.5%float 2.25%float eq_refl eq_refl).
Defined.

End PointTableMore.

(** ** More on the rankings *)

Section RankingMore.
Import Leaderboard LeaderboardSpec Profile ProfileSpec.

Lemma calculatePoints_range p a : 0 <= Points.calculatePoints p a <= 5.
Proof.
  rewrite calculatePoints_difference.
  apply (pointsForDifference_table _ (abs_not_neg _)).
Qed.

Lemma storedElseTableElseZero_range stored prediction grade :
  (forall n, stored = Val n -> 0 <= n <= 5) ->
  0 <= storedElseTableElseZero stored prediction grade <= 5.
Proof.
  intros H. unfold storedElseTableElseZero. destruct stored as [| |n]; [| |now apply H].
  all: unfold Points.calculatePredictionPoints;
    destruct prediction as [| |p]; try lia;
    destruct grade as [| |a]; try lia;
    destruct (Number_isNaN a); try lia; apply calculatePoints_range.
Qed.

Lemma examPoints_range predictions student exam :
  (forall p n, In p predictions ->
     Prediction.points1 p = Val n \/ Prediction.points2 p = Val n -> 0 <= n <= 5) ->
  0 <= examPoints predictions student exam <= 10.
Proof.
  intros H. unfold examPoints.
  destruct (find _ predictions) as [p|] eqn:E; [|lia].
  apply find_some in E as [Hin _].
  pose proof (storedElseTableElseZero_range (Prediction.points1 p)
                (Prediction.prediction1 p) (gradeOf exam (User.id student))
                (fun n Hn => H p n Hin (or_introl Hn))).
  pose proof (storedElseTableElseZero_range (Prediction.points2 p)
                (Prediction.prediction2 p) (gradeOf exam (User.id student))
                (fun n Hn => H p n Hin (or_intror Hn))).
  simpl. lia.
Qed.

Lemma Zsum_range {A} (f : A -> Z) (l : list A) (hi : Z) :
  (forall x, 0 <= f x <= hi) ->
  0 <= Zsum (map f l) <= hi * Z.of_nat (length l).
Proof.
  intros H. induction l as [|x l IH]; simpl; [lia|].
  specialize (H x). lia.
Qed.

Lemma filter_and_length {A} (p q : A -> bool) (l : list A) :
  (length (List.filter (fun x => p x && q x) l) <= length (List.filter p l))%nat.
Proof.
  induction l as [|x l IH]; simpl; [lia|].
  destruct (p x), (q x); simpl; lia.
Qed.

(** X11. When every stored point value lies between 0 and 5, a student's
    total on the leaderboard lies between 0 and ten times the number of
    exams whose resolved status is closed. *)
Theorem leaderboard_total_bounds (h : Host) (exams : list Exam.t)
    (predictions : list Prediction.t) (student : User.t) :
  (forall (p : Prediction.t) (n : Z),
      In p predictions ->
      Prediction.points1 p = Val n \/ Prediction.points2 p = Val n ->
      0 <= n <= 5) ->
  0 <= StudentTotal.totalPoints (studentTotal h exams predictions student)
    <= 10 * Z.of_nat
         (length (List.filter
                    (fun exam => ExamStatus_eqb (ExamUtils.getExamStatus h exam) closed)
                    exams)).
Proof.
  intros Hstored. rewrite studentTotal_row. simpl. unfold LeaderboardSpec.totalPoints.
  pose proof (Zsum_range (examPoints predictions student)
                (List.filter (contributes h) exams) 10
                (fun exam => examPoints_range predictions student exam Hstored)) as H.
  pose proof (filter_and_length
                (fun exam => ExamStatus_eqb (ExamUtils.getExamStatus h exam) closed)
                (fun exam => match Exam.grades exam with Some _ => true | None => false end)
                exams) as Hlen.
  change (List.filter _ exams) with (List.filter (contributes h) exams) in Hlen at 1.
  lia.
Qed.

Lemma leaderboard_total_bounds_witness :
  0 <= StudentTotal.totalPoints
         (studentTotal (Sample.utc (Sample.noon 19802))
            [Sample.exam "e1" "2024-03-01" false (Some {[ "1" := 5%float ]})]
            [Sample.prediction "e1" "1" (Val 5%float) Undefined (Val 5) Undefined]
            Sample.anna)
    <= 10.
Proof.
  apply (leaderboard_total_bounds (Sample.utc (Sample.noon 19802))
           [Sample.exam "e1" "2024-03-01" false (Some {[ "1" := 5%float ]})]
           [Sample.prediction "e1" "1" (Val 5%float) Undefined (Val 5) Undefined]
           Sample.anna).
  intros p n [<- | []] [H | H]; simpl in H; [injection H as <-; lia | discriminate].
Defined.

Lemma storedTotal_other exam predictions user s :
  (forall p, In p predictions -> Prediction.studentId p = User.id user) ->
  User.id s <> User.id user ->
  storedTotal exam predictions s = 0.
Proof.
  intros Hown Hid. unfold storedTotal.
  destruct (find _ predictions) as [p|] eqn:E; [|reflexivity].
  apply find_some in E as [Hin Hp]. unfold samePair in Hp.
  apply andb_true_iff in Hp as [_ Hs]. apply String.eqb_eq in Hs.
  rewrite (Hown p Hin) in Hs. congruence.
Qed.

Lemma findIndex_map {A B} (f : A -> B) (p : B -> bool) (l : list A) :
  findIndex p (map f l) = findIndex (fun x => p (f x)) l.
Proof. induction l as [|x l IH]; simpl; [reflexivity|]. now rewrite IH. Qed.

Lemma filter_all {A} (p : A -> bool) (l : list A) :
  (forall x, In x l -> p x = true) -> List.filter p l = l.
Proof.
  induction l as [|x l IH]; intros H; [reflexivity|]. simpl.
  rewrite (H x) by now left. f_equal. apply IH. intros y Hy. apply H. now right.
Qed.

(** Sorting leaves an array of equal keys as it is. *)
Lemma sort_all_equal {A} (key : A -> Z) (k : Z) (l : list A) :
  (forall x, In x l -> key x = k) -> sort (descending key) l = l.
Proof.
  intros H.
  rewrite <- (filter_all (fun a => key a =? k) (sort (descending key) l)).
  - rewrite sort_descending_stable. apply filter_all.
    intros x Hx. apply Z.eqb_eq. now apply H.
  - intros x Hx. apply Z.eqb_eq. apply H.
    eapply Permutation_in; [apply sort_perm | exact Hx].
Qed.

(** X12. The profile page ranks against the predictions of the logged-in
    student alone.  With such a collection every other student's total
    for the exam is 0, so a student with a positive stored total is
    ranked first whatever the others predicted, and a student with a
    total of 0 gets the rank of the roster position. *)
Theorem own_predictions_rank (exam : Exam.t) (students : list User.t)
    (predictions : list Prediction.t) (user : User.t) :
  (forall p : Prediction.t,
      In p predictions -> Prediction.studentId p = User.id user) ->
  In user students ->
  let rankings := examRankings exam students predictions in
  (0 < storedTotal exam predictions user ->
   userRank user rankings = 1 /\
   userTotalPoints user rankings = storedTotal exam predictions user) /\
  (storedTotal exam predictions user = 0 ->
   userRank user rankings
     = findIndex (fun s => String.eqb (User.id s) (User.id user)) students + 1 /\
   userTotalPoints user rankings = 0).
Proof.
  intros Hown Hin rankings.
  assert (Hr : rankings = sort Profile.byTotalDesc (cohort exam students predictions))
    by apply examRankings_cohort.
  assert (Htot : forall r, In r (cohort exam students predictions) ->
            Ranking.totalPoints r = storedTotal exam predictions user
            \/ (Ranking.totalPoints r = 0 /\ Ranking.studentId r <> User.id user)).
  { intros r Hr'. unfold cohort in Hr'. apply in_map_iff in Hr' as (s & <- & _). simpl.
    destruct (String.eqb_spec (User.id s) (User.id user)) as [E | E].
    - left. now apply storedTotal_id.
    - right. split; [now apply (storedTotal_other exam predictions user) | exact E]. }
  split.
  - intros Hpos.
    assert (Hmember :
      In {| Ranking.studentId := User.id user;
            Ranking.totalPoints := storedTotal exam predictions user |} rankings).
    { rewrite Hr. eapply Permutation_in; [symmetry; apply sort_perm|].
      unfold cohort. apply in_map_iff. now exists user. }
    pose proof (sort_descending_sorted Ranking.totalPoints
                  (cohort exam students predictions)) as Hsorted.
    change (descending Ranking.totalPoints) with Profile.byTotalDesc in Hsorted.
    rewrite <- Hr in Hsorted.
    destruct rankings as [|r0 rest]; [destruct Hmember|].
    assert (Hr0 : In r0 (cohort exam students predictions)).
    { eapply Permutation_in; [apply sort_perm|]. rewrite <- Hr. now left. }
    assert (Hmax : storedTotal exam predictions user <= Ranking.totalPoints r0).
    { destruct Hmember as [Heq | Hrest]; [rewrite Heq; simpl; lia|].
      apply StronglySorted_inv in Hsorted as [_ Hall].
      rewrite Forall_forall in Hall.
      apply list_elem_of_In in Hrest. exact (Hall _ Hrest). }
    destruct (Htot r0 Hr0) as [Hsame | [Hzero _]]; [|lia].
    assert (Hu : isUser user r0 = true).
    { unfold isUser. apply String.eqb_eq.
      unfold cohort in Hr0. apply in_map_iff in Hr0 as (s & <- & _). simpl in *.
      destruct (String.eqb_spec (User.id s) (User.id user)) as [E | E]; [exact E|].
      rewrite (storedTotal_other exam predictions user s Hown E) in Hsame. lia. }
    unfold userRank, userTotalPoints. simpl. rewrite Hu. simpl. split; [reflexivity|].
    rewrite Hsame. destruct (storedTotal exam predictions user =? 0) eqn:E; lia.
  - intros Hzero.
    assert (Hsame : rankings = cohort exam students predictions).
    { rewrite Hr. apply (sort_all_equal Ranking.totalPoints 0).
      intros r Hr'. destruct (Htot r Hr') as [H | [H _]]; lia. }
    rewrite Hsame. split.
    + unfold userRank, cohort. rewrite findIndex_map. reflexivity.
    + unfold userTotalPoints.
      destruct (find (isUser user) (cohort exam students predictions)) as [r|] eqn:E;
        [|reflexivity].
      apply find_some in E as [Hr' _]. simpl.
      destruct (Htot r Hr') as [H | [H _]]; rewrite H; try rewrite Hzero; reflexivity.
Qed.

Lemma own_predictions_rank_witness :
  userRank Sample.anna
    (examRankings (Sample.exam "e1" "2024-03-01" true (Some {[ "1" := 5%float ]}))
       [Sample.ben; Sample.anna]
       [Sample.prediction "e1" "1" (Val 4%float) Undefined (Val 4) Undefined])
  = 1.
Proof.
  apply (own_predictions_rank
           (Sample.exam "e1" "2024-03-01" true (Some {[ "1" := 5%float ]}))
           [Sample.ben; Sample.anna]
           [Sample.prediction "e1" "1" (Val 4%float) Undefined (Val 4) Undefined]
           Sample.anna).
  - intros p [<- | []]. reflexivity.
  - right. now left.
  - vm_compute. reflexivity.
Defined.



End RankingMore.

(** ** The exam adapter *)

Section AdapterFacts.
Import ApiAdapter.

Lemma copy_step_lookup (o : gmap string float) (l : list string)
    (acc : gmap string float) (k : string) :
  fold_left (fun grades key =>
               match o !! key with
               | Some g => <[key := g]> grades
               | None => grades
               end) l acc !! k
  = match (if bool_decide (k ∈ l) then o !! k else None) with
    | Some g => Some g
    | None => acc !! k
    end.
Proof.
  revert acc. induction l as [|key l IH]; intros acc; simpl; [reflexivity|].
  rewrite IH. destruct (decide (k = key)) as [-> | Hne].
  - rewrite (bool_decide_eq_true_2 (key ∈ key :: l)) by left.
    destruct (bool_decide (key ∈ l)); destruct (o !! key) as [g|] eqn:E;
      try reflexivity. now rewrite lookup_insert_eq.
  - assert (Hl : bool_decide (k ∈ key :: l) = bool_decide (k ∈ l)).
    { apply bool_decide_ext. rewrite elem_of_cons. tauto. }
    rewrite Hl. destruct (bool_decide (k ∈ l)); destruct (o !! k) as [g|];
      try reflexivity;
      destruct (o !! key); try reflexivity; now rewrite lookup_insert_ne.
Qed.

(** The loop copies the mapping entry by entry. *)
Lemma copyGrades_same (o : gmap string float) : copyGrades o = o.
Proof.
  apply map_eq. intros k. unfold copyGrades. rewrite copy_step_lookup.
  rewrite lookup_empty. destruct (o !! k) as [g|] eqn:E.
  - rewrite bool_decide_eq_true_2; [reflexivity|].
    unfold keys. apply list_elem_of_fmap. exists (k, g). split; [reflexivity|].
    now apply elem_of_map_to_list.
  - now destruct (bool_decide _).
Qed.

(** X14. An exam that comes out of [examToFrontend] always carries a
    grades mapping, with the entries of the backend's mapping unchanged
    and empty when the backend sent none; so for such an exam the
    leaderboard's test of [exam.grades] never fails and the resolved
    status alone decides whether the exam counts, while the profile page
    shows a result only if the backend set the flag and sent a grade for
    the student. *)
Theorem examToFrontend_grades (String_ : Z -> string) (backendExam : BackendExam) :
  let exam := examToFrontend String_ backendExam in
  Exam.grades exam
    = Some (match grades backendExam with Val o => o | _ => ∅ end) /\
  (forall (h : Host) (predictions : list Prediction.t) (student : User.t)
          (totalPoints : Z),
      Leaderboard.countExam h predictions student totalPoints exam
      = if ExamStatus_eqb (ExamUtils.getExamStatus h exam) closed
        then totalPoints + LeaderboardSpec.examPoints predictions student exam
        else totalPoints) /\
  (forall user : User.t,
      Profile.hasResult user exam = true ->
      isClosed backendExam = Val true /\
      exists (o : gmap string float) (g : float),
        grades backendExam = Val o /\ o !! User.id user = Some g).
Proof.
  intros exam.
  assert (Hg : Exam.grades exam
               = Some (match grades backendExam with Val o => o | _ => ∅ end)).
  { unfold exam, examToFrontend. simpl.
    destruct (grades backendExam); try reflexivity. now rewrite copyGrades_same. }
  repeat apply conj.
  - exact Hg.
  - intros h predictions student totalPoints. rewrite countExam_step.
    unfold LeaderboardSpec.contributes. rewrite Hg. now rewrite andb_true_r.
  - intros user Hres. apply hasResult_flag in Hres as (Hflag & o & g & Ho & Hentry & _).
    rewrite Hg in Ho. injection Ho as <-. split.
    + unfold exam, examToFrontend in Hflag. simpl in Hflag.
      destruct (isClosed backendExam) as [| |[]]; try discriminate. reflexivity.
    + destruct (grades backendExam) as [| |o];
        try (rewrite lookup_empty in Hentry; discriminate).
      now exists o, g.
Qed.

End AdapterFacts.

(** ** The route guards *)

Section RouteFacts.
Import App.

(** X15. From every route and for every login state, following the
    redirects of the guards ends after at most two of them on a page, and
    the page suits the user: the login page only without a user, the
    student pages only for a student, the teacher pages only for a
    teacher. *)
Theorem routes_end_on_permitted_page (user : option User.t) (route : Route)
    (fuel : nat) :
  (2 <= fuel)%nat ->
  exists page : Page,
    show fuel user route = Some page /\
    match page with
    | Login => user = None
    | StudentDashboard | Profile | Leaderboard => hasRole user student = true
    | TeacherDashboard | ClassManagement | StudentDetail => hasRole user teacher = true
    end.
Proof.
  intros Hfuel. destruct fuel as [|[|fuel]]; try lia.
  destruct user as [[i n e p []]|], route; destruct fuel; simpl;
    eexists; (split; [reflexivity|]); reflexivity.
Qed.

Lemma routes_end_on_permitted_page_witness :
  exists page : Page, show 2 None LeaderboardRoute = Some page /\ page = Login.
Proof.
  destruct (routes_end_on_permitted_page None LeaderboardRoute 2 ltac:(lia))
    as (page & Hshow & Hpage).
  exists page. split; [exact Hshow|].
  vm_compute in Hshow. now injection Hshow as <-.
Defined.

End RouteFacts.

(** ** Loading the leaderboard's data *)

Section LeaderboardPageFacts.
Import Leaderboard LeaderboardPage.

Lemma find_app {A} (p : A -> bool) (l1 l2 : list A) :
  find p (l1 ++ l2)
  = match find p l1 with Some x => Some x | None => find p l2 end.
Proof.
  induction l1 as [|x l1 IH]; [reflexivity|]. simpl. unfold find in *. simpl.
  destruct (p x); [reflexivity | exact IH].
Qed.

Lemma find_other_student get exam sid sid' :
  (forall id preds, get id = Some preds ->
     forall p, In p preds -> Prediction.studentId p = id) ->
  sid' <> sid ->
  find (samePair exam sid) (delivered get sid') = None.
Proof.
  intros Hown Hne. unfold delivered.
  destruct (get sid') as [preds|] eqn:E; [|reflexivity].
  destruct (find _ preds) as [p|] eqn:F; [|reflexivity].
  apply find_some in F as [Hin Hp]. unfold samePair in Hp.
  apply andb_true_iff in Hp as [_ Hs]. apply String.eqb_eq in Hs.
  rewrite (Hown sid' preds E p Hin) in Hs. contradiction.
Qed.

Lemma loadPredictions_find get exam sid students acc :
  (forall id preds, get id = Some preds ->
     forall p, In p preds -> Prediction.studentId p = id) ->
  find (samePair exam sid) (loadPredictions get students acc)
  = match find (samePair exam sid) acc with
    | Some p => Some p
    | None =>
        if existsb (fun s => String.eqb (User.id s) sid) students
        then find (samePair exam sid) (delivered get sid)
        else None
    end.
Proof.
  intros Hown. revert acc.
  induction students as [|s students IH]; intros acc; simpl.
  - now destruct (find _ acc).
  - assert (Hstep : loadPredictions get (s :: students) acc
                    = loadPredictions get students (acc ++ delivered get (User.id s))).
    { simpl. unfold delivered. destruct (get (User.id s)); [reflexivity|].
      now rewrite app_nil_r. }
    simpl in Hstep. rewrite Hstep, IH, find_app.
    destruct (find (samePair exam sid) acc) as [p|]; [reflexivity|].
    destruct (String.eqb_spec (User.id s) sid) as [-> | Hne]; simpl.
    + destruct (find _ (delivered get sid)); [reflexivity|].
      now destruct (existsb _ students).
    + now rewrite (find_other_student get exam sid (User.id s) Hown Hne).
Qed.

Lemma studentTotal_find h exams predictions predictions' student :
  (forall exam, find (samePair exam (User.id student)) predictions
                = find (samePair exam (User.id student)) predictions') ->
  studentTotal h exams predictions student = studentTotal h exams predictions' student.
Proof.
  intros H. unfold studentTotal. f_equal.
  generalize 0. induction exams as [|exam exams IH]; intros acc; [reflexivity|].
  simpl. rewrite IH. f_equal. unfold countExam. now rewrite H.
Qed.

(** X16. When each request returns predictions of the requested student
    only, the rows of the leaderboard are those of the users with the
    role student, in their order, each total is computed from what the
    student's own request delivered, and a student whose request failed
    gets a total of 0 while the other rows are unaffected. *)
Theorem leaderboard_rows_from_own_requests (h : Host)
    (get : string -> option (list Prediction.t))
    (exams : list Exam.t) (allUsers : list User.t) :
  (forall (id : string) (preds : list Prediction.t),
      get id = Some preds ->
      forall p : Prediction.t, In p preds -> Prediction.studentId p = id) ->
  studentTotals h get exams allUsers
    = map (fun student => studentTotal h exams (delivered get (User.id student)) student)
          (List.filter isStudent allUsers) /\
  (forall student : User.t,
      get (User.id student) = None ->
      StudentTotal.totalPoints
        (studentTotal h exams (delivered get (User.id student)) student) = 0).
Proof.
  intros Hown. split.
  - unfold studentTotals. apply map_ext_in. intros student Hin.
    apply studentTotal_find. intros exam.
    rewrite (loadPredictions_find get exam (User.id student) _ [] Hown). simpl.
    assert (Hex : existsb (fun s => String.eqb (User.id s) (User.id student))
                    (List.filter isStudent allUsers) = true).
    { apply existsb_exists. exists student. split; [exact Hin | apply String.eqb_refl]. }
    now rewrite Hex.
  - intros student Hfail. unfold delivered. rewrite Hfail. unfold studentTotal. simpl.
    assert (E : forall acc, fold_left (countExam h [] student) exams acc = acc).
    { induction exams as [|exam exams IH]; intros acc; [reflexivity|].
      simpl. rewrite IH. unfold countExam. simpl.
      now destruct (ExamStatus_eqb _ closed), (Exam.grades exam). }
    apply E.
Qed.

Lemma sample_get_own :
  forall (id : string) (preds : list Prediction.t),
    SampleSession.get id = Some preds ->
    forall p : Prediction.t, In p preds -> Prediction.studentId p = id.
Proof.
  intros id preds H p Hp. unfold SampleSession.get in H.
  destruct (String.eqb_spec id "1") as [-> | _]; [|discriminate].
  injection H as <-. destruct Hp as [<- | []]. reflexivity.
Qed.

Lemma leaderboard_rows_from_own_requests_witness :
  map StudentTotal.totalPoints
      (studentTotals (Sample.utc (Sample.noon 19802)) SampleSession.get
         [Sample.exam "e1" "2024-03-01" false (Some {[ "1" := 5%float ]})]
         [Sample.ben; Sample.anna])
  = [0; 5].
Proof.
  rewrite (proj1 (leaderboard_rows_from_own_requests
                    (Sample.utc (Sample.noon 19802)) SampleSession.get
                    [Sample.exam "e1" "2024-03-01" false (Some {[ "1" := 5%float ]})]
                    [Sample.ben; Sample.anna] sample_get_own)).
  vm_compute. reflexivity.
Defined.

End LeaderboardPageFacts.

(** ** The session and the user adapter *)

Section SessionFacts.
Import Auth.

Lemma getStoredUser_set json u storage :
  parse json (stringify json u) = Some (Some u) ->
  stringify json u <> EmptyString ->
  getStoredUser json (setStoredUser json (Some u) storage) = Some u.
Proof.
  intros Hparse Hne. unfold getStoredUser, setStoredUser.
  rewrite lookup_insert_eq. destruct (stringify json u); [congruence|].
  now rewrite Hparse.
Qed.

Lemma getStoredUser_cleared json storage :
  getStoredUser json (setStoredUser json None storage) = None.
Proof. unfold getStoredUser, setStoredUser. now rewrite lookup_delete_eq. Qed.

(** X17. When a user survives [JSON.stringify] and [JSON.parse] and has
    a non-empty identifier, a successful login stores the user, and a
    provider created afterwards on the same session storage, as after a
    reload, has the same user once mounted.  After a logout such a
    provider has no user, and the other keys of the session storage are
    as they were before the login. *)
Theorem session_survives_reload (json : Json) (u : User.t) (st : State) :
  parse json (stringify json u) = Some (Some u) ->
  stringify json u <> EmptyString ->
  User.id u <> EmptyString ->
  let loggedIn := snd (login json (Some u) st) in
  let loggedOut := logout json loggedIn in
  fst (login json (Some u) st) = true /\
  user loggedIn = Some u /\
  mount json (created (sessionStorage loggedIn))
    = {| user := Some u; loading := false;
         sessionStorage := sessionStorage loggedIn |} /\
  user loggedOut = None /\
  user (mount json (created (sessionStorage loggedOut))) = None /\
  (forall key : string,
      key <> STORAGE_KEY ->
      sessionStorage loggedOut !! key = sessionStorage st !! key).
Proof.
  intros Hparse Hne Hid loggedIn loggedOut.
  assert (Hlogin : login json (Some u) st
                   = (true,
                      {| user := Some u; loading := loading st;
                         sessionStorage :=
                           setStoredUser json (Some u) (sessionStorage st) |})).
  { unfold login. destruct (User.id u); [congruence | reflexivity]. }
  unfold loggedOut, loggedIn. rewrite Hlogin. unfold logout.
  cbn [fst snd user sessionStorage loading]. repeat apply conj; try reflexivity.
  - unfold mount, created. cbn [user sessionStorage loading].
    now rewrite getStoredUser_set.
  - unfold mount, created. cbn [user sessionStorage loading].
    now rewrite getStoredUser_cleared.
  - intros key Hkey. unfold setStoredUser.
    rewrite lookup_delete_ne by congruence.
    now rewrite lookup_insert_ne by congruence.
Qed.

Lemma session_survives_reload_witness :
  user (mount SampleSession.json
          (created (sessionStorage
                      (snd (login SampleSession.json (Some Sample.anna) (created ∅))))))
  = Some Sample.anna.
Proof.
  exact (f_equal user (proj1 (proj2 (proj2
    (session_survives_reload SampleSession.json Sample.anna (created ∅)
       eq_refl ltac:(discriminate) ltac:(discriminate)))))).
Defined.



End SessionFacts.

Section UserAdapterFacts.
Import Stdlib.Strings.Ascii.
Import UserAdapter.

(** X19. [userToFrontend] after [userToBackend] gives back the user it
    started from, role, password and names included, whenever the
    identifier is not empty and survives [Number] and [String]. *)
Theorem user_round_trip (String_ : nullable float -> string)
    (Number_ : string -> float) (u : User.t) :
  User.id u <> EmptyString ->
  String_ (Val (Number_ (User.id u))) = User.id u ->
  userToFrontend String_ (userToBackend Number_ u) = u.
Proof.
  intros Hne Hid. destruct u as [i n e p r]. simpl in *.
  unfold userToFrontend, userToBackend. simpl.
  destruct i as [|c i]; [congruence|]. rewrite Hid.
  f_equal. now destruct r.
Qed.

Lemma user_round_trip_witness :
  userToFrontend SampleIds.String_ (userToBackend SampleIds.Number_ Sample.ben)
  = Sample.ben.
Proof.
  apply user_round_trip; [discriminate | reflexivity].
Defined.

Lemma lowerChar_upperChar (c k : Ascii.ascii) :
  In k ["t"; "e"; "a"; "c"; "h"; "r"]%char ->
  lowerChar c = k <-> upperChar c = upperChar k.
Proof.
  intros Hk.
  repeat (destruct Hk as [<- | Hk];
          [destruct c as [[] [] [] [] [] [] [] []]; vm_compute; split; congruence|]).
  destruct Hk.
Qed.

Lemma toLowerCase_toUpperCase (r k : string) :
  (forall c, In c (String.list_ascii_of_string k) ->
             In c ["t"; "e"; "a"; "c"; "h"; "r"]%char) ->
  toLowerCase r = k <-> toUpperCase r = toUpperCase k.
Proof.
  revert k. induction r as [|c r IH]; intros [|c' k] Hk; simpl;
    try (split; discriminate); [tauto|].
  assert (Hc : lowerChar c = c' <-> upperChar c = upperChar c')
    by (apply lowerChar_upperChar, Hk; now left).
  assert (Hr : toLowerCase r = k <-> toUpperCase r = toUpperCase k)
    by (apply IH; intros x Hx; apply Hk; now right).
  split; intros H; injection H as H1 H2; f_equal; tauto.
Qed.

(** X20. Whatever the backend sends as a role, the frontend user is a
    teacher exactly when the role is the word teacher in some mix of
    upper and lower case; a missing, null or unknown role gives a
    student. *)
Theorem role_defaults_to_student (String_ : nullable float -> string)
    (backendUser : BackendUser) :
  User.role (userToFrontend String_ backendUser) = teacher <->
  exists r : string,
    role backendUser = Val r /\ toUpperCase r = "TEACHER"%string.
Proof.
  unfold userToFrontend. simpl.
  assert (Hcase : forall r, String.eqb (toLowerCase r) "teacher" = true
                            <-> toUpperCase r = "TEACHER"%string).
  { intros r. rewrite String.eqb_eq.
    apply (toLowerCase_toUpperCase r "teacher").
    simpl. intros c Hc. repeat (destruct Hc as [<- | Hc]; [simpl; tauto|]).
    destruct Hc. }
  destruct (role backendUser) as [| |r].
  - split; [discriminate | intros (r & H & _); discriminate].
  - split; [discriminate | intros (r & H & _); discriminate].
  - destruct (String.eqb (toLowerCase r) "teacher") eqn:E.
    + split; [|reflexivity]. intros _. exists r. split; [reflexivity|]. now apply Hcase.
    + split; [discriminate|]. intros (r' & H & Hup). injection H as <-.
      apply Hcase in Hup. congruence.
Qed.

End UserAdapterFacts.

(** ** The display of grades *)

Section FormatFacts.
Import JS Points Format.
Import Stdlib.Strings.Ascii.

Lemma list_ascii_of_string_app (a b : string) :
  String.list_ascii_of_string (a ++ b)%string =
  String.list_ascii_of_string a ++ String.list_ascii_of_string b.
Proof. induction a as [|c a IH]; simpl; [reflexivity | now rewrite IH]. Qed.

Lemma dropPointZeros_decimals (whole : list ascii) (d1 d2 : ascii) :
  dropPointZeros (whole ++ ["."; d1; d2]%char) =
  if Ascii.eqb d2 "0" && Ascii.eqb d1 "0" then whole
  else whole ++ ["."; d1; d2]%char.
Proof.
  unfold dropPointZeros. rewrite rev_app_distr. simpl.
  rewrite andb_true_r, rev_involutive. reflexivity.
Qed.

Lemma dropLastZero_decimals (whole : list ascii) (d1 d2 : ascii) :
  isDigit d1 = true ->
  dropLastZero (whole ++ ["."; d1; d2]%char) =
  if Ascii.eqb d2 "0" then whole ++ ["."; d1]%char
  else whole ++ ["."; d1; d2]%char.
Proof.
  intros Hd. unfold dropLastZero. rewrite rev_app_distr. simpl.
  rewrite Hd, andb_true_r, rev_involutive.
  destruct (Ascii.eqb d2 "0"); [|reflexivity].
  now rewrite <- app_assoc.
Qed.

Lemma dropLastZero_no_point (s : list ascii) :
  Forall (fun c => c <> "."%char) s -> dropLastZero s = s.
Proof.
  intros H. unfold dropLastZero.
  destruct (rev s) as [|z [|d [|point r]]] eqn:E; try reflexivity.
  assert (Hin : In point s) by (apply in_rev; rewrite E; simpl; tauto).
  rewrite List.Forall_forall in H. apply H in Hin.
  apply Ascii.eqb_neq in Hin. rewrite Hin, andb_false_r. reflexivity.
Qed.

Lemma digits_no_point (d : Decimal.uint) :
  Forall (fun c => c <> "."%char)
    (String.list_ascii_of_string (DecimalString.NilEmpty.string_of_uint d)).
Proof.
  induction d; simpl; constructor; try assumption; discriminate.
Qed.

Lemma decimal_no_point (n : Z) :
  Forall (fun c => c <> "."%char) (String.list_ascii_of_string (decimal n)).
Proof.
  unfold decimal, DecimalString.NilZero.string_of_uint.
  destruct (N.to_uint (Z.to_N n)) eqn:E; rewrite <- ?E;
    try apply digits_no_point.
  simpl. constructor; [discriminate | constructor].
Qed.

Lemma digit_facts (v : Z) :
  0 <= v < 10 ->
  isDigit (digit v) = true /\ Ascii.eqb (digit v) "0" = (v =? 0).
Proof.
  intros H.
  assert (Hv : v = 0 \/ v = 1 \/ v = 2 \/ v = 3 \/ v = 4 \/ v = 5 \/ v = 6 \/
               v = 7 \/ v = 8 \/ v = 9) by lia.
  repeat (destruct Hv as [-> | Hv]; [vm_compute; split; reflexivity|]).
  subst v. vm_compute; split; reflexivity.
Qed.

Lemma finite_not_nan (g : float) s m e :
  Prim2SF g = S754_finite s m e -> is_nan g = false.
Proof.
  intros H. unfold is_nan. rewrite FloatAxioms.eqb_spec, H.
  unfold SFeqb, SFcompare. rewrite Z.compare_refl.
  change (Pos.compare_cont Eq m m) with (Pos.compare m m).
  rewrite Pos.compare_refl. destruct s; reflexivity.
Qed.

(** The display of a number that is neither zero nor NaN nor infinite,
    from its sign, mantissa and exponent. *)
Lemma formatGrade_finite (Number_toString : float -> string) (g : float)
    (s : bool) (m : positive) (e : Z) :
  Prim2SF g = S754_finite s m e ->
  atLeast1e21 m e = false ->
  formatGrade Number_toString (Val g) = shortest s (hundredths m e).
Proof.
  intros Hg Hsmall. unfold formatGrade, Number_isNaN.
  rewrite (finite_not_nan _ _ _ _ Hg).
  rewrite <- (String.string_of_list_ascii_of_string (shortest _ _)).
  f_equal. unfold toFixed2, shortest. rewrite Hg, Hsmall.
  set (n := hundredths m e). cbv zeta.
  set (sign := if s then "-"%string else EmptyString).
  assert (H1 : 0 <= n / 10 mod 10 < 10) by (apply Z.mod_pos_bound; lia).
  assert (H2 : 0 <= n mod 10 < 10) by (apply Z.mod_pos_bound; lia).
  assert (H100 : (n mod 100 =? 0) = (n mod 10 =? 0) && (n / 10 mod 10 =? 0)).
  { destruct (Z.eqb_spec (n mod 100) 0), (Z.eqb_spec (n mod 10) 0),
      (Z.eqb_spec (n / 10 mod 10) 0); simpl; try reflexivity; exfalso;
      Z.div_mod_to_equations; lia. }
  destruct (digit_facts _ H1) as [Hd1 Hz1], (digit_facts _ H2) as [_ Hz2].
  rewrite !list_ascii_of_string_app. simpl String.list_ascii_of_string at 3.
  rewrite app_assoc, dropPointZeros_decimals, Hz1, Hz2, H100.
  destruct (n mod 10 =? 0) eqn:E2; simpl andb.
  - destruct (n / 10 mod 10 =? 0) eqn:E1.
    + rewrite app_nil_r.
      apply dropLastZero_no_point, Forall_app. split; [|apply decimal_no_point].
      destruct s; simpl; repeat constructor; discriminate.
    + rewrite dropLastZero_decimals, Hz2 by exact Hd1.
      rewrite <- app_assoc. reflexivity.
  - cbv iota. rewrite dropLastZero_decimals, Hz2 by exact Hd1.
    rewrite <- app_assoc. reflexivity.
Qed.

Lemma zero_not_nan (g : float) (s : bool) :
  Prim2SF g = S754_zero s -> is_nan g = false.
Proof.
  intros H. unfold is_nan. rewrite FloatAxioms.eqb_spec, H. reflexivity.
Qed.

(** The magnitude of [(-1)^s * m * 2^e]. *)
Lemma Qabs_value (s : bool) (m : positive) (e : Z) :
  (Qabs (inject_Z (if s then Z.neg m else Z.pos m) * Qpower 2 e)
   == inject_Z (Z.pos m) * Qpower 2 e)%Q.
Proof.
  rewrite Qabs_Qmult.
  assert (H2 : (0 <= Qpower 2 e)%Q) by (apply Qpower_pos; discriminate).
  rewrite (Qabs_pos _ H2). destruct s; reflexivity.
Qed.

Lemma Qpower_2_neg (p : positive) :
  (Qpower 2 (Z.neg p) == 1 # (2 ^ p)%positive)%Q.
Proof.
  change (Z.neg p) with (- Z.pos p). rewrite Qpower_opp.
  rewrite <- (Zpower_Qpower 2 (Z.pos p)) by lia.
  rewrite <- Pos2Z.inj_pow. reflexivity.
Qed.

(** [hundredths m e] is the integer nearest to a hundred times the
    magnitude, the larger one when two are equally near. *)
Lemma hundredths_nearest (s : bool) (m : positive) (e : Z) :
  let q := (inject_Z (if s then Z.neg m else Z.pos m) * Qpower 2 e)%Q in
  let n := hundredths m e in
  (inject_Z n - (1 # 2) <= 100 * Qabs q)%Q /\
  (100 * Qabs q < inject_Z n + (1 # 2))%Q.
Proof.
  intros q n. unfold q. rewrite Qabs_value. unfold n, hundredths.
  destruct e as [|p|p].
  - simpl Z.leb. cbv iota. change (Qpower 2 0) with 1%Q.
    unfold Qle, Qlt, Qminus, Qplus, Qmult, Qopp, inject_Z. simpl. lia.
  - simpl Z.leb. cbv iota.
    rewrite <- (Zpower_Qpower 2 (Z.pos p)) by lia.
    pose proof (Z.pow_pos_nonneg 2 (Z.pos p) ltac:(lia) ltac:(lia)) as Hd.
    set (d := 2 ^ Z.pos p) in *.
    unfold Qle, Qlt, Qminus, Qplus, Qmult, Qopp, inject_Z. simpl Qnum. simpl Qden.
    nia.
  - simpl Z.leb. cbv iota. rewrite Qpower_2_neg.
    change (- Z.neg p) with (Z.pos p). rewrite <- Pos2Z.inj_pow.
    set (d := (2 ^ p)%positive).
    pose proof (Z.div_mod (200 * Z.pos m + Z.pos d) (2 * Z.pos d) ltac:(lia)) as Hdiv.
    pose proof (Z.mod_pos_bound (200 * Z.pos m + Z.pos d) (2 * Z.pos d) ltac:(lia)) as Hmod.
    set (k := (200 * Z.pos m + Z.pos d) / (2 * Z.pos d)) in *.
    unfold Qle, Qlt, Qminus, Qplus, Qmult, Qopp, inject_Z. simpl Qnum. simpl Qden.
    rewrite ?Pos2Z.inj_mul. nia.
Qed.

(** The test against 10^21 is the test on the magnitude. *)
Lemma below_1e21 (s : bool) (m : positive) (e : Z) :
  (Qabs (inject_Z (if s then Z.neg m else Z.pos m) * Qpower 2 e)
   < inject_Z (10 ^ 21))%Q ->
  atLeast1e21 m e = false.
Proof.
  rewrite Qabs_value. unfold atLeast1e21.
  destruct e as [|p|p].
  - simpl Z.leb. cbv iota. change (Qpower 2 0) with 1%Q.
    unfold Qlt, Qmult, inject_Z. simpl Qnum. simpl Qden. intros H.
    apply Z.leb_gt. change (2 ^ 0) with 1. lia.
  - simpl Z.leb. cbv iota.
    rewrite <- (Zpower_Qpower 2 (Z.pos p)) by lia.
    unfold Qlt, Qmult, inject_Z. simpl Qnum. simpl Qden. intros H.
    apply Z.leb_gt. lia.
  - simpl Z.leb. cbv iota. rewrite Qpower_2_neg.
    change (- Z.neg p) with (Z.pos p). rewrite <- Pos2Z.inj_pow.
    unfold Qlt, Qmult, inject_Z. simpl Qnum. simpl Qden. intros H.
    apply Z.leb_gt. lia.
Qed.

(** The sign bit of a number that is not zero says whether its value is
    below zero. *)
Lemma sign_of_value (s : bool) (m : positive) (e : Z) :
  negb (Qle_bool 0 (inject_Z (if s then Z.neg m else Z.pos m) * Qpower 2 e)) = s.
Proof.
  assert (Hp : (0 < Qpower 2 e)%Q) by (apply Qpower_0_lt; reflexivity).
  destruct s.
  - destruct (Qle_bool 0 _) eqn:E; [|reflexivity].
    apply Qle_bool_iff in E. exfalso. revert E. apply Qlt_not_le.
    unfold Qlt in *. simpl in *. nia.
  - apply negb_false_iff, Qle_bool_iff, Qmult_le_0_compat.
    + discriminate.
    + now apply Qlt_le_weak.
Qed.

(** X21. A grade that is a finite number, zero included, of magnitude
    below 10^21 is displayed as the shortest numeral of its value
    rounded to hundredths: with [n] the integer nearest to a hundred
    times the magnitude (the larger one of two), a minus sign if the
    value is below zero, the whole part of [n / 100] in full, no decimals
    when both are zero, one decimal when the second is zero, else two. *)
Theorem formatGrade_shortest (Number_toString : float -> string) (g : float)
    (q : Q) :
  exactValue g = Some q ->
  (Qabs q < inject_Z (10 ^ 21))%Q ->
  exists n : Z,
    ((inject_Z n - (1 # 2) <= 100 * Qabs q)%Q /\
     (100 * Qabs q < inject_Z n + (1 # 2))%Q) /\
    formatGrade Number_toString (Val g) = shortest (negb (Qle_bool 0 q)) n.
Proof.
  intros Hq Hsmall. unfold exactValue in Hq.
  destruct (Prim2SF g) as [z| | |s m e] eqn:Hg; try discriminate;
    injection Hq as <-.
  - exists 0. split; [split; [vm_compute; discriminate | reflexivity]|].
    unfold formatGrade, Number_isNaN. rewrite (zero_not_nan _ _ Hg).
    unfold toFixed2. rewrite Hg. reflexivity.
  - exists (hundredths m e). split; [apply hundredths_nearest|].
    rewrite sign_of_value. apply formatGrade_finite; [exact Hg|].
    now apply (below_1e21 s).
Qed.

Lemma formatGrade_shortest_witness :
  formatGrade (fun _ => "Infinity"%string) (Val 4.5%float) = "4.5"%string.
Proof.
  destruct (formatGrade_shortest (fun _ => "Infinity"%string) 4.5%float _
              eq_refl eq_refl) as (n & [Hlow Hhigh] & Hshown).
  assert (Hn : n = 450).
  { unfold Qle, Qlt in Hlow, Hhigh. vm_compute Qabs in Hlow, Hhigh.
    unfold Qminus, Qplus, Qmult, Qopp, inject_Z in Hlow, Hhigh.
    simpl in Hlow, Hhigh. lia. }
  rewrite Hshown, Hn. reflexivity.
Defined.

(** X22. Each grade option is displayed as its whole part followed by
    nothing, .25, .5 or .75: 1, 1.25, 1.5, 1.75, 2, ..., 5.75, 6. *)
Theorem formatGrade_on_grade_options (Number_toString : float -> string)
    (fuel : nat) (options : list float) :
  (22 <= fuel)%nat ->
  getGradeOptions fuel = Some options ->
  forall (k : nat) (g : float),
    options !! k = Some g ->
    formatGrade Number_toString (Val g) = quarterName k.
Proof.
  intros Hfuel Hrun.
  replace fuel with (22 + (fuel - 22))%nat in Hrun by lia.
  rewrite getGradeOptions_runs in Hrun. injection Hrun as <-.
  intros k g Hk.
  do 21 (destruct k as [|k];
         [cbn in Hk; simplify_eq; vm_compute; reflexivity|]).
  discriminate.
Qed.

Lemma formatGrade_on_grade_options_witness :
  formatGrade (fun _ => "Infinity"%string) (Val 5.25%float) = "5.25"%string.
Proof.
  exact (formatGrade_on_grade_options _ 22 _ ltac:(lia) (getGradeOptions_runs 0)
           17%nat 5.25%float eq_refl).
Defined.

End FormatFacts.
